(** * OpenAPI generator ([api-design/scripts/generate_openapi.py])

    A shallow embedding of the generator script and the properties of
    its specification.

    The script works on the values [json.load] returns: [None], booleans,
    integers, floats, strings, lists and insertion-ordered dictionaries.
    They are embedded as [pyval]; the Python operations the script applies
    to them ([d[k]], [d.get], [in], [for ... in], truthiness, [str.lower],
    [str.title], [str.replace], [set.update]) are embedded with the
    exceptions they raise, so that the generator is defined on every value
    a model file can hold.

    A string is held as its UTF-8 encoding.  Floats are the IEEE values
    of the Standard Library's [spec_float].

    What the script takes from the interpreter, from its libraries and
    from the machine is an argument of the embedding: [str.lower] and
    [str.title], which follow the Unicode tables of the interpreter, the
    JSON reader, the YAML writer, the order in which a set is iterated,
    the place a path names, the making of the output directories and the
    opening of the output file, whether the console takes the confirmation
    line, and the help text of the option parser. *)

From Stdlib Require Import String Ascii ZArith List Bool Lia Permutation.
From Stdlib Require Import Floats.SpecFloat.
Import ListNotations.
Local Open Scope string_scope.
Local Open Scope list_scope.
Set Warnings "-register-all".

(** ** Exceptions and results *)

(** The exceptions of the script, by class: [OSError] stands for its
    subclasses other than [FileNotFoundError], [JSONDecodeError] for what
    [json.load] raises on a text it cannot read. *)
Inductive exn : Type :=
| FileNotFoundError
| JSONDecodeError
| KeyError
| TypeError
| AttributeError
| OSError.

Inductive result (A : Type) : Type :=
| Ok (a : A)
| Raise (e : exn).

Arguments Ok {A} a.
Arguments Raise {A} e.

Definition bind {A B : Type} (r : result A) (k : A -> result B) : result B :=
  match r with
  | Ok a => k a
  | Raise e => Raise e
  end.

Notation "x <- r ;; k" := (bind r (fun x => k))
  (at level 61, r at next level, right associativity).

(** A [for] loop whose body may raise: the state is threaded through the
    items in order and the first exception ends the loop. *)
Fixpoint for_each {A S : Type} (body : S -> A -> result S) (items : list A)
    (s : S) : result S :=
  match items with
  | [] => Ok s
  | x :: rest => s' <- body s x ;; for_each body rest s'
  end.

(** ** Python values *)

Inductive pyval : Type :=
| PNone
| PBool (b : bool)
| PInt (z : Z)
| PFloat (f : spec_float)
| PStr (s : string)
| PList (l : list pyval)
| PDict (d : list (pyval * pyval)).

(** A dictionary is the list of its items in insertion order. *)
Definition pydict : Type := list (pyval * pyval).

Notation "k :-> v" := (PStr k, v) (at level 65, no associativity).

(** [bool(v)] *)
Definition truthy (v : pyval) : bool :=
  match v with
  | PNone => false
  | PBool b => b
  | PInt z => negb (z =? 0)%Z
  | PFloat (S754_zero _) => false
  | PFloat _ => true
  | PStr s => negb (s =? "")
  | PList l => match l with [] => false | _ => true end
  | PDict d => match d with [] => false | _ => true end
  end.

(** Lists and dictionaries have no hash. *)
Definition hashable (v : pyval) : bool :=
  match v with
  | PList _ | PDict _ => false
  | _ => true
  end.

(** The numeric value of a number: [m * 2 ^ e], an infinity, or the
    not-a-number constant of the json module. *)
Inductive numeric : Type :=
| Dyadic (m e : Z)
| Infinite (negative : bool)
| NotANumber.

Definition numeric_of (v : pyval) : option numeric :=
  match v with
  | PBool b => Some (Dyadic (if b then 1 else 0) 0)
  | PInt z => Some (Dyadic z 0)
  | PFloat (S754_zero _) => Some (Dyadic 0 0)
  | PFloat (S754_infinity s) => Some (Infinite s)
  | PFloat S754_nan => Some NotANumber
  | PFloat (S754_finite s m e) =>
      Some (Dyadic (if s then Z.neg m else Z.pos m) e)
  | _ => None
  end.

Definition numeric_eqb (a b : numeric) : bool :=
  match a, b with
  | Dyadic m1 e1, Dyadic m2 e2 =>
      let e := Z.min e1 e2 in
      (m1 * 2 ^ (e1 - e) =? m2 * 2 ^ (e2 - e))%Z
  | Infinite s, Infinite t => Bool.eqb s t
  | NotANumber, NotANumber => true
  | _, _ => false
  end.

(** Key comparison of dictionaries and sets on hashable values: [True],
    [1] and [1.0] are one key, a string equals only the same string.  The
    json module hands out one NaN object, which is found again by
    identity. *)
Definition py_eq (a b : pyval) : bool :=
  match a, b with
  | PNone, PNone => true
  | PStr s, PStr t => (s =? t)
  | _, _ =>
      match numeric_of a, numeric_of b with
      | Some x, Some y => numeric_eqb x y
      | _, _ => false
      end
  end.

(** *** Dictionaries *)

Fixpoint dict_get (k : pyval) (d : pydict) : option pyval :=
  match d with
  | [] => None
  | (k', v) :: rest => if py_eq k k' then Some v else dict_get k rest
  end.

(** [d[k] = v] on a hashable key: an existing key keeps its place and
    takes the new value, a new key goes last. *)
Fixpoint dict_set (k v : pyval) (d : pydict) : pydict :=
  match d with
  | [] => [(k, v)]
  | (k', v') :: rest =>
      if py_eq k k' then (k', v) :: rest else (k', v') :: dict_set k v rest
  end.

Definition dict_keys (d : pydict) : list pyval := map fst d.

(** [d.update(other)] *)
Definition dict_update (d other : pydict) : pydict :=
  fold_left (fun acc kv => dict_set (fst kv) (snd kv) acc) other d.

(** [d[k] = v] with the hash check of the key. *)
Definition py_setitem (d : pydict) (k v : pyval) : result pydict :=
  if hashable k then Ok (dict_set k v d) else Raise TypeError.

(** [v[k]] for a string [k]: only a dictionary can be indexed by a
    string. *)
Definition py_getitem (v : pyval) (k : string) : result pyval :=
  match v with
  | PDict d =>
      match dict_get (PStr k) d with
      | Some x => Ok x
      | None => Raise KeyError
      end
  | _ => Raise TypeError
  end.

(** [v.get(k, default)]: only dictionaries have [get]. *)
Definition py_get (v : pyval) (k : string) (default : pyval) : result pyval :=
  match v with
  | PDict d =>
      match dict_get (PStr k) d with
      | Some x => Ok x
      | None => Ok default
      end
  | _ => Raise AttributeError
  end.

(** *** Strings

    A string is the sequence of the bytes of its UTF-8 encoding (with the
    three-byte form for a lone surrogate, which a JSON text can hold):
    equality, concatenation and the replacement of one ASCII character by
    another are then those of Python's strings.  [str.lower] and
    [str.title] are arguments of the generator; [ascii_lower] and
    [ascii_title] are what the two methods do to a string of ASCII
    characters, where the cased characters are the letters [A-Z] and
    [a-z]. *)

Definition is_upper (c : ascii) : bool :=
  let n := nat_of_ascii c in (65 <=? n)%nat && (n <=? 90)%nat.

Definition is_lower (c : ascii) : bool :=
  let n := nat_of_ascii c in (97 <=? n)%nat && (n <=? 122)%nat.

Definition is_cased (c : ascii) : bool := is_upper c || is_lower c.

Definition to_lower (c : ascii) : ascii :=
  if is_upper c then ascii_of_nat (nat_of_ascii c + 32) else c.

Definition to_upper (c : ascii) : ascii :=
  if is_lower c then ascii_of_nat (nat_of_ascii c - 32) else c.

(** A string of ASCII characters. *)
Fixpoint is_ascii (s : string) : bool :=
  match s with
  | EmptyString => true
  | String c rest => (nat_of_ascii c <? 128)%nat && is_ascii rest
  end.

(** [s.lower()] for a string of ASCII characters. *)
Fixpoint ascii_lower (s : string) : string :=
  match s with
  | EmptyString => EmptyString
  | String c rest => String (to_lower c) (ascii_lower rest)
  end.

(** [s.title()] for a string of ASCII characters: a character that
    follows a cased character is lowered, any other one is raised. *)
Fixpoint ascii_title_from (previous_is_cased : bool) (s : string) : string :=
  match s with
  | EmptyString => EmptyString
  | String c rest =>
      String (if previous_is_cased then to_lower c else to_upper c)
             (ascii_title_from (is_cased c) rest)
  end.

Definition ascii_title (s : string) : string := ascii_title_from false s.

(** [s.replace(old, new)] for one-character [old] and [new]. *)
Fixpoint replace (old new : ascii) (s : string) : string :=
  match s with
  | EmptyString => EmptyString
  | String c rest =>
      String (if Ascii.eqb c old then new else c) (replace old new rest)
  end.

(** [needle in hay] on strings. *)
Fixpoint substring_of (needle hay : string) : bool :=
  if prefix needle hay then true
  else match hay with
       | EmptyString => false
       | String _ rest => substring_of needle rest
       end.

(** A byte of the form [10xxxxxx], which continues a character. *)
Definition is_continuation (c : ascii) : bool :=
  let n := nat_of_ascii c in (128 <=? n)%nat && (n <? 192)%nat.

(** The characters of a string: each is a leading byte with the
    continuation bytes that follow it. *)
Fixpoint code_points (s : string) : list string :=
  match s with
  | EmptyString => []
  | String c rest =>
      let after := code_points rest in
      match rest, after with
      | String next _, following :: others =>
          if is_continuation next then String c following :: others
          else String c EmptyString :: after
      | _, _ => String c EmptyString :: after
      end
  end.

Definition characters (s : string) : list pyval := map PStr (code_points s).

(** [for x in v]: the items of a list, the keys of a dictionary, the
    characters of a string. *)
Definition py_iter (v : pyval) : result (list pyval) :=
  match v with
  | PList l => Ok l
  | PDict d => Ok (dict_keys d)
  | PStr s => Ok (characters s)
  | _ => Raise TypeError
  end.

(** [k in v] for a string [k]. *)
Definition py_contains (k : string) (v : pyval) : result bool :=
  match v with
  | PDict d => Ok (match dict_get (PStr k) d with Some _ => true | None => false end)
  | PList l => Ok (existsb (py_eq (PStr k)) l)
  | PStr s => Ok (substring_of k s)
  | _ => Raise TypeError
  end.

(** *** Sets

    A set is the list of its members; [set_add] keeps the member that is
    already there.  The order in which Python iterates over a set is the
    order of the slots of its hash table, which follows the hashes of the
    members; string hashes are salted anew in every process.  The
    iteration order is therefore an argument of the generator. *)

Definition pyset : Type := list pyval.

Definition set_add (x : pyval) (s : pyset) : pyset :=
  if existsb (py_eq x) s then s else s ++ [x].

(** [s.update(iterable)] *)
Definition set_update (s : pyset) (iterable : pyval) : result pyset :=
  items <- py_iter iterable ;;
  for_each (fun acc x => if hashable x then Ok (set_add x acc) else Raise TypeError)
           items s.

(** The set after its members and those of a list: [s | set(l)] built
    one [add] at a time. *)
Definition add_all (l : list pyval) (s : pyset) : pyset :=
  fold_left (fun acc x => set_add x acc) l s.

(** ** The lookup tables *)

Definition json_ref (target : string) : pyval :=
  PDict ["$ref" :-> PStr target].

Definition json_content (schema : pyval) : pyval :=
  PDict ["application/json" :-> PDict ["schema" :-> schema]].

(** [99.99] and [3.14] as binary64 values. *)
Definition float_99_99 : spec_float := S754_finite false 7036170730324623 (-46).
Definition float_3_14 : spec_float := S754_finite false 7070651414971679 (-51).

Definition type_mapping : pydict :=
  [ "uuid" :-> PDict ["type" :-> PStr "string"; "format" :-> PStr "uuid"];
    "email" :-> PDict ["type" :-> PStr "string"; "format" :-> PStr "email"];
    "phone" :-> PDict ["type" :-> PStr "string"; "format" :-> PStr "phone"];
    "currency" :-> PDict ["type" :-> PStr "number"; "format" :-> PStr "decimal"];
    "datetime" :-> PDict ["type" :-> PStr "string"; "format" :-> PStr "date-time"];
    "date" :-> PDict ["type" :-> PStr "string"; "format" :-> PStr "date"];
    "enum" :-> PDict ["type" :-> PStr "string"];
    "boolean" :-> PDict ["type" :-> PStr "boolean"];
    "integer" :-> PDict ["type" :-> PStr "integer"];
    "float" :-> PDict ["type" :-> PStr "number"; "format" :-> PStr "float"];
    "string" :-> PDict ["type" :-> PStr "string"] ].

Definition examples : pydict :=
  [ "uuid" :-> PStr "123e4567-e89b-12d3-a456-426614174000";
    "email" :-> PStr "user@example.com";
    "phone" :-> PStr "+1-555-123-4567";
    "currency" :-> PFloat float_99_99;
    "datetime" :-> PStr "2023-11-23T10:30:00Z";
    "date" :-> PStr "2023-11-23";
    "boolean" :-> PBool true;
    "integer" :-> PInt 42;
    "float" :-> PFloat float_3_14;
    "string" :-> PStr "example value" ].

(** [table.get(key, default)] for a key of any type: the key is hashed
    first. *)
Definition table_get (table : pydict) (key default : pyval) : result pyval :=
  if hashable key then
    Ok (match dict_get key table with Some x => x | None => default end)
  else Raise TypeError.

(** A string method called on [v]. *)
Definition as_str (v : pyval) : result string :=
  match v with
  | PStr s => Ok s
  | _ => Raise AttributeError
  end.

Definition _map_data_type (data_type : pyval) : result pyval :=
  table_get type_mapping data_type (PDict ["type" :-> PStr "string"]).

Definition _generate_example_value (data_type : pyval) : result pyval :=
  table_get examples data_type (PStr "example").

Definition _generate_standard_responses : pyval :=
  PDict
    [ "BadRequest" :-> PDict
        [ "description" :-> PStr "Bad request";
          "content" :-> json_content (json_ref "#/components/schemas/Error") ];
      "Unauthorized" :-> PDict
        [ "description" :-> PStr "Authentication required";
          "content" :-> json_content (json_ref "#/components/schemas/Error") ];
      "Forbidden" :-> PDict
        [ "description" :-> PStr "Access denied";
          "content" :-> json_content (json_ref "#/components/schemas/Error") ];
      "NotFound" :-> PDict
        [ "description" :-> PStr "Resource not found";
          "content" :-> json_content (json_ref "#/components/schemas/Error") ] ].

(** ** Schemas *)

(** The dictionary stored at [schema['properties'][attr_name]] once the
    body of the attribute loop is through: the literal of line 100, then
    [format] and [maxLength] set on it. *)
Definition attribute_property (attr attr_type : pyval) : result pydict :=
  openapi_type <- _map_data_type attr_type ;;
  ty <- py_getitem openapi_type "type" ;;
  description <- py_get attr "description" (PStr "") ;;
  example <- _generate_example_value attr_type ;;
  let property :=
    [ "type" :-> ty; "description" :-> description; "example" :-> example ] in
  has_format <- py_contains "format" openapi_type ;;
  property <-
    (if has_format then
       format <- py_getitem openapi_type "format" ;;
       Ok (dict_set (PStr "format") format property)
     else Ok property) ;;
  max_length <- py_get attr "max_length" PNone ;;
  if truthy max_length then
    max_length <- py_getitem attr "max_length" ;;
    Ok (dict_set (PStr "maxLength") max_length property)
  else Ok property.

(** The body of the attribute loop on the two parts of the schema it
    changes, [schema['properties']] and [schema['required']]. *)
Definition attribute_step (schema : pydict * list pyval) (attr : pyval)
    : result (pydict * list pyval) :=
  let (properties, required) := schema in
  attr_name <- py_getitem attr "name" ;;
  attr_type <- py_getitem attr "type" ;;
  property <- attribute_property attr attr_type ;;
  properties <- py_setitem properties attr_name (PDict property) ;;
  is_required <- py_get attr "required" (PBool false) ;;
  Ok (properties, if truthy is_required then required ++ [attr_name] else required).

Definition _generate_entity_schema (entity : pyval) : result pyval :=
  attributes <- py_get entity "attributes" (PList []) ;;
  attrs <- py_iter attributes ;;
  schema <- for_each attribute_step attrs ([], []) ;;
  let schema :=
    [ "type" :-> PStr "object";
      "properties" :-> PDict (fst schema);
      "required" :-> PList (snd schema) ] in
  has_taxonomy <- py_contains "taxonomy_classification" entity ;;
  if has_taxonomy then
    classification <- py_getitem entity "taxonomy_classification" ;;
    Ok (PDict (dict_set (PStr "x-taxonomy") classification schema))
  else Ok (PDict schema).

(** ** Paths *)

Definition base_path_of (schema_name : string) : string :=
  "/" ++ schema_name ++ "s".

Definition entity_path_of (schema_name : string) : string :=
  base_path_of schema_name ++ "/{" ++ schema_name ++ "Id}".

Definition collection_item (entity_name : string) : pyval :=
  PDict
    [ "get" :-> PDict
        [ "summary" :-> PStr ("List " ++ entity_name ++ "s");
          "operationId" :-> PStr ("list" ++ entity_name ++ "s");
          "responses" :-> PDict
            [ "200" :-> PDict
                [ "description" :-> PStr "Successful response";
                  "content" :-> json_content (PDict
                    [ "type" :-> PStr "object";
                      "properties" :-> PDict
                        [ "data" :-> PDict
                            [ "type" :-> PStr "array";
                              "items" :-> json_ref
                                ("#/components/schemas/" ++ entity_name) ] ] ]) ] ] ];
      "post" :-> PDict
        [ "summary" :-> PStr ("Create " ++ entity_name);
          "operationId" :-> PStr ("create" ++ entity_name);
          "requestBody" :-> PDict
            [ "required" :-> PBool true;
              "content" :-> json_content (json_ref
                ("#/components/schemas/Create" ++ entity_name ++ "Request")) ];
          "responses" :-> PDict
            [ "201" :-> PDict
                [ "description" :-> PStr (entity_name ++ " created successfully");
                  "content" :-> json_content (json_ref
                    ("#/components/schemas/" ++ entity_name ++ "Response")) ] ] ] ].

Definition single_item (entity_name schema_name : string) : pyval :=
  PDict
    [ "get" :-> PDict
        [ "summary" :-> PStr ("Get " ++ entity_name);
          "operationId" :-> PStr ("get" ++ entity_name);
          "parameters" :-> PList
            [ PDict
                [ "name" :-> PStr (schema_name ++ "Id");
                  "in" :-> PStr "path";
                  "required" :-> PBool true;
                  "schema" :-> PDict
                    [ "type" :-> PStr "string"; "format" :-> PStr "uuid" ] ] ];
          "responses" :-> PDict
            [ "200" :-> PDict
                [ "description" :-> PStr "Successful response";
                  "content" :-> json_content (json_ref
                    ("#/components/schemas/" ++ entity_name ++ "Response")) ] ] ] ].

(** The dictionary literal of two computed keys. *)
Definition _generate_entity_paths (entity_name schema_name : string) : pydict :=
  let base_path := base_path_of schema_name in
  let entity_path := entity_path_of schema_name in
  dict_set (PStr entity_path) (single_item entity_name schema_name)
    (dict_set (PStr base_path) (collection_item entity_name) []).

(** ** The generator and the command line *)

(** The dictionary [openapi_spec] with the schemas and the paths the
    entity loop has put into it. *)
Definition openapi_spec_of (api_title : string) (version description : pyval)
    (filled : pydict * pydict) : pydict :=
  [ "openapi" :-> PStr "3.0.3";
    "info" :-> PDict
      [ "title" :-> PStr api_title;
        "version" :-> version;
        "description" :-> description;
        "contact" :-> PDict
          [ "name" :-> PStr "API Development Team";
            "email" :-> PStr "api@empathyfirstmedia.com" ] ];
    "servers" :-> PList
      [ PDict
          [ "url" :-> PStr "https://api.empathyfirstmedia.com/v1";
            "description" :-> PStr "Production server" ] ];
    "paths" :-> PDict (snd filled);
    "components" :-> PDict
      [ "schemas" :-> PDict (fst filled);
        "responses" :-> _generate_standard_responses ] ].

(** What is at a place of the file system: a file with its text, or
    something that is there and cannot be opened for reading, a directory
    or a file of another user. *)
Inductive node : Type :=
| Text (content : string)
| Unreadable.

(** The files of the machine, by place: a file has one place, whatever
    the paths that lead to it. *)
Definition filesystem : Type := string -> option node.

Definition write_file (place text : string) (fs : filesystem) : filesystem :=
  fun p => if p =? place then Some (Text text) else fs p.

(** [Path(path).exists()] for the place of the path. *)
Definition path_exists (fs : filesystem) (place : string) : bool :=
  match fs place with
  | Some _ => true
  | None => false
  end.

(** What [yaml.dump] has put into the open file: the whole text, or the
    part it wrote before an exception. *)
Inductive dumped : Type :=
| Dumped (text : string)
| Interrupted (partial : string).

Record OpenAPIGenerator : Type := { taxonomy : pyval }.

(** The command line as the option parser reads it: whether help is
    asked for, and the three options. *)
Record arguments : Type :=
  { arg_help : bool;
    arg_model : option string;
    arg_taxonomy : option string;
    arg_output : option string }.

(** What a run of the script leaves behind. *)
Record outcome : Type :=
  { exit_code : Z;
    files : filesystem;
    stdout : list string }.

Section Generator.

(** [json.loads]: the value of a text, or nothing when the text is not
    JSON. *)
Variable json_load : string -> option pyval.

(** [yaml.dump(spec, f, default_flow_style=False, sort_keys=False)] *)
Variable yaml_dump : pyval -> dumped.

(** [str.lower] and [str.title] of the interpreter. *)
Variable str_lower : string -> string.
Variable str_title : string -> string.

(** [list(s)] for a set [s]: the members in the order of this process
    (see [pyset]). *)
Variable set_iteration : pyset -> list pyval.

(** The place a path names. *)
Variable locate : string -> string.

(** [output_path.parent.mkdir(parents=True, exist_ok=True)] and
    [open(output_path, 'w')]: the file system they leave, and whether the
    file is open. *)
Variable prepare : filesystem -> string -> filesystem * bool.

(** Whether [print] can put a line on the standard output: the
    confirmation has a character outside ASCII, which an output of
    another encoding refuses. *)
Variable console_accepts : string -> bool.

(** What the option parser prints for [--help]. *)
Variable help_text : string.

(** [with open(path, 'r') as f: json.load(f)] *)
Definition open_json (fs : filesystem) (path : string) : result pyval :=
  match fs (locate path) with
  | None => Raise FileNotFoundError
  | Some Unreadable => Raise OSError
  | Some (Text text) =>
      match json_load text with
      | Some v => Ok v
      | None => Raise JSONDecodeError
      end
  end.

Definition __init__ (fs : filesystem) (taxonomy_file : option string)
    : result OpenAPIGenerator :=
  match taxonomy_file with
  | Some path =>
      if negb (path =? "") && path_exists fs (locate path) then
        t <- open_json fs path ;; Ok {| taxonomy := t |}
      else Ok {| taxonomy := PDict [] |}
  | None => Ok {| taxonomy := PDict [] |}
  end.

(** The body of the entity loop on the two dictionaries it changes,
    [openapi_spec['components']['schemas']] and [openapi_spec['paths']]. *)
Definition entity_step (spec : pydict * pydict) (entity : pyval)
    : result (pydict * pydict) :=
  let (schemas, paths) := spec in
  name <- py_getitem entity "name" ;;
  entity_name <- as_str name ;;
  let schema_name := str_lower entity_name in
  schema <- _generate_entity_schema entity ;;
  let schemas := dict_set (PStr entity_name) schema schemas in
  let entity_paths := _generate_entity_paths entity_name schema_name in
  Ok (schemas, dict_update paths entity_paths).

Definition compliance_step (compliance : pyset) (entity : pyval)
    : result pyset :=
  has_taxonomy <- py_contains "taxonomy_classification" entity ;;
  if has_taxonomy then
    classification <- py_getitem entity "taxonomy_classification" ;;
    listed <- py_get classification "compliance" (PList []) ;;
    set_update compliance listed
  else Ok compliance.

Definition _extract_compliance_requirements (entities : pyval)
    : result pyval :=
  items <- py_iter entities ;;
  compliance <- for_each compliance_step items [] ;;
  Ok (PList (set_iteration compliance)).

(** [generate_from_model] after the model file is loaded. *)
Definition generate_from_loaded (self : OpenAPIGenerator) (model : pyval)
    : result pyval :=
  model_info <- py_get model "model" (PDict []) ;;
  entities <- py_get model "entities" (PList []) ;;
  domain <- py_get model_info "domain" (PStr "API") ;;
  domain <- as_str domain ;;
  version <- py_get model_info "version" (PStr "1.0.0") ;;
  description <- py_get model_info "description" (PStr "") ;;
  items <- py_iter entities ;;
  filled <- for_each entity_step items ([], []) ;;
  let openapi_spec :=
    openapi_spec_of (str_title (replace "_" " " domain) ++ " API")
                    version description filled in
  if truthy (taxonomy self) then
    domain <- py_get model_info "domain" PNone ;;
    version <- py_get model_info "version" PNone ;;
    compliance <- _extract_compliance_requirements entities ;;
    Ok (PDict (dict_set (PStr "x-taxonomy")
                 (PDict [ "domain" :-> domain;
                          "version" :-> version;
                          "compliance" :-> compliance ])
                 openapi_spec))
  else Ok (PDict openapi_spec).

Definition generate_from_model (self : OpenAPIGenerator) (fs : filesystem)
    (model_file : string) : result pyval :=
  model <- open_json fs model_file ;;
  generate_from_loaded self model.

Definition confirmation (output : string) : string :=
  "✅ OpenAPI specification generated: " ++ output.

(** [main]: [--help] prints the help text and ends the run with status 0
    before anything is read; a missing required option ends it with
    status 2, an exception that nobody catches with status 1.  The output
    file is opened, and so emptied, before the document is dumped into
    it. *)
Definition main (args : arguments) (fs : filesystem) : outcome :=
  if arg_help args then
    {| exit_code := 0; files := fs; stdout := [help_text] |}
  else
    match arg_model args, arg_output args with
    | Some model, Some output =>
        match
          generator <- __init__ fs (arg_taxonomy args) ;;
          generate_from_model generator fs model
        with
        | Raise _ => {| exit_code := 1; files := fs; stdout := [] |}
        | Ok spec =>
            let (made, opened) := prepare fs output in
            if opened then
              match yaml_dump spec with
              | Dumped text =>
                  let written := write_file (locate output) text made in
                  if console_accepts (confirmation output) then
                    {| exit_code := 0;
                       files := written;
                       stdout := [confirmation output] |}
                  else {| exit_code := 1; files := written; stdout := [] |}
              | Interrupted partial =>
                  {| exit_code := 1;
                     files := write_file (locate output) partial made;
                     stdout := [] |}
              end
            else {| exit_code := 1; files := made; stdout := [] |}
        end
    | _, _ => {| exit_code := 2; files := fs; stdout := [] |}
    end.

End Generator.

(** ** Reading the model and the document

    The words of the specification, as functions of the loaded model and
    of the generated document. *)

(** [doc[k1][k2]...] *)
Fixpoint lookup_path (keys : list string) (v : pyval) : result pyval :=
  match keys with
  | [] => Ok v
  | k :: rest => x <- py_getitem v k ;; lookup_path rest x
  end.

(** The field of a record, when the record has it. *)
Definition field (name : string) (record : pyval) : option pyval :=
  match record with
  | PDict d => dict_get (PStr name) d
  | _ => None
  end.

(** The [model] record of a model file. *)
Definition model_info_of (model : pyval) : pyval :=
  match field "model" model with
  | Some info => info
  | None => PDict []
  end.

(** The items a loop over [v] visits. *)
Definition iterated (v : pyval) : list pyval :=
  match py_iter v with
  | Ok l => l
  | Raise _ => []
  end.

(** The entities of a model, in declared order. *)
Definition entities_of (model : pyval) : list pyval :=
  match field "entities" model with
  | Some v => iterated v
  | None => []
  end.

(** The attributes of an entity, in declared order. *)
Definition attributes_of (entity : pyval) : list pyval :=
  match field "attributes" entity with
  | Some v => iterated v
  | None => []
  end.

(** The two keys of the paths of one entity. *)
Definition path_keys (schema_name : string) : list pyval :=
  [PStr (base_path_of schema_name); PStr (entity_path_of schema_name)].

(** The field of a record, [None] when the record does not have it. *)
Definition field_or_none (name : string) (record : pyval) : pyval :=
  match field name record with
  | Some x => x
  | None => PNone
  end.

Definition name_of (record : pyval) : pyval := field_or_none "name" record.

(** The domain of a model that names one. *)
Definition domain_of (model : pyval) : option string :=
  match field "domain" (model_info_of model) with
  | Some (PStr d) => Some d
  | _ => None
  end.

(** A string in title case: no lowercase letter at the start of a word,
    no uppercase letter inside one. *)
Fixpoint titlecased_from (previous_is_cased : bool) (s : string) : bool :=
  match s with
  | EmptyString => true
  | String c rest =>
      (if previous_is_cased then negb (is_upper c) else negb (is_lower c))
      && titlecased_from (is_cased c) rest
  end.

(** The name of a record, entity or attribute, that has a string for a
    name. *)
Definition declared_name (entity : pyval) : option string :=
  match field "name" entity with
  | Some (PStr n) => Some n
  | _ => None
  end.

(** A list of records whose names are the strings [names]. *)
Definition named (entities : list pyval) (names : list string) : Prop :=
  map declared_name entities = map Some names.

(** [required: true] *)
Definition marked_required (attr : pyval) : bool :=
  match field "required" attr with
  | Some (PBool true) => true
  | _ => false
  end.

(** The [required] field is a boolean when it is there. *)
Definition required_is_boolean (attr : pyval) : Prop :=
  match field "required" attr with
  | Some (PBool _) | None => True
  | Some _ => False
  end.

(** The [taxonomy_classification.compliance] list of an entity. *)
Definition compliance_of (entity : pyval) : list pyval :=
  match field "taxonomy_classification" entity with
  | Some classification =>
      match field "compliance" classification with
      | Some (PList l) => l
      | _ => []
      end
  | None => []
  end.

Definition is_string (v : pyval) : Prop :=
  match v with
  | PStr _ => True
  | _ => False
  end.

(** The [compliance] field of an entity is a list of strings when it is
    there. *)
Definition compliance_is_strings (entity : pyval) : Prop :=
  match field "taxonomy_classification" entity with
  | Some classification =>
      match field "compliance" classification with
      | Some (PList l) => Forall is_string l
      | Some _ => False
      | None => True
      end
  | None => True
  end.

(** The type table of the specification: declared type, output type,
    format. *)
Definition spec_type_table : list (string * (string * option string)) :=
  [ ("uuid", ("string", Some "uuid"));
    ("email", ("string", Some "email"));
    ("phone", ("string", Some "phone"));
    ("currency", ("number", Some "decimal"));
    ("datetime", ("string", Some "date-time"));
    ("date", ("string", Some "date"));
    ("enum", ("string", None));
    ("boolean", ("boolean", None));
    ("integer", ("integer", None));
    ("float", ("number", Some "float"));
    ("string", ("string", None)) ].

Definition spec_type_row (declared : string) : option (string * option string) :=
  option_map snd (find (fun row => declared =? fst row) spec_type_table).

(** The members of a list, each once, in the order of their first
    occurrence. *)
Definition add_new (seen : list string) (x : string) : list string :=
  if existsb (String.eqb x) seen then seen else seen ++ [x].

Definition distinct (l : list string) : list string := fold_left add_new l [].

(** The last record of a name in a list of entities or attributes. *)
Fixpoint last_named (n : string) (entities : list pyval) : option pyval :=
  match entities with
  | [] => None
  | e :: rest =>
      match last_named n rest with
      | Some e' => Some e'
      | None =>
          match declared_name e with
          | Some m => if m =? n then Some e else None
          | None => None
          end
      end
  end.

(** Whether a string is a key or a string value somewhere in a value. *)
Fixpoint mentions (s : string) (v : pyval) : bool :=
  match v with
  | PStr t => t =? s
  | PList l => existsb (mentions s) l
  | PDict d =>
      existsb (fun kv : pyval * pyval =>
                 let (k, x) := kv in mentions s k || mentions s x) d
  | _ => false
  end.

(** No taxonomy was given to the generator: no option, an empty path or
    nothing at the place of the path. *)
Definition taxonomy_absent (locate : string -> string) (fs : filesystem)
    (taxonomy_file : option string) : bool :=
  match taxonomy_file with
  | None => true
  | Some path => (path =? "") || negb (path_exists fs (locate path))
  end.

(** A property that follows the type table for a declared type: the type
    and the format of the row, no format where the row has none; for a
    type off the table the type [string], no format and the example
    ["example"]. *)
Definition follows_table (declared : string) (property : pydict) : Prop :=
  match spec_type_row declared with
  | Some (ty, format) =>
      dict_get (PStr "type") property = Some (PStr ty) /\
      dict_get (PStr "format") property = option_map PStr format
  | None =>
      dict_get (PStr "type") property = Some (PStr "string") /\
      dict_get (PStr "format") property = None /\
      dict_get (PStr "example") property = Some (PStr "example")
  end.

(** [str.title] on strings of ASCII characters. *)
Definition titles_ascii (str_title : string -> string) : Prop :=
  forall s, is_ascii s = true -> str_title s = ascii_title s.

(** Two documents that differ at most in the order of the compliance list
    of the extension. *)
Definition same_up_to_compliance_order (d1 d2 : pyval) : Prop :=
  d1 = d2 \/
  exists (spec : pydict) (domain version : pyval) (c1 c2 : list pyval),
    d1 = PDict (spec ++ ["x-taxonomy" :-> PDict [ "domain" :-> domain;
                                                 "version" :-> version;
                                                 "compliance" :-> PList c1 ]]) /\
    d2 = PDict (spec ++ ["x-taxonomy" :-> PDict [ "domain" :-> domain;
                                                 "version" :-> version;
                                                 "compliance" :-> PList c2 ]]) /\
    Permutation c1 c2.

(** Two runs that end alike: with the same exception, or with results
    related by [P]. *)
Definition agree {A : Type} (P : A -> A -> Prop) (r1 r2 : result A) : Prop :=
  match r1, r2 with
  | Ok a1, Ok a2 => P a1 a2
  | Raise e1, Raise e2 => e1 = e2
  | _, _ => False
  end.

(** A writer that finishes for two documents or for neither. *)
Definition finishes_alike (yaml_dump : pyval -> dumped) (d1 d2 : pyval)
    : Prop :=
  match yaml_dump d1, yaml_dump d2 with
  | Dumped _, Dumped _ => True
  | Interrupted _, Interrupted _ => True
  | _, _ => False
  end.

(** An iteration order of sets: every member once. *)
Definition iterates_members (set_iteration : pyset -> list pyval) : Prop :=
  forall s, Permutation (set_iteration s) s.

(** *** Models of the input format

    The format of the specification: a model is a record with an optional
    [model] record, whose [domain] is a string, and an optional list of
    entities; an entity has a string for a name, an optional list of
    attributes with strings for name and type, and an optional
    classification whose [compliance] is a list of strings. *)

Definition is_str (v : pyval) : bool :=
  match v with
  | PStr _ => true
  | _ => false
  end.

Definition optional (check : pyval -> bool) (o : option pyval) : bool :=
  match o with
  | Some v => check v
  | None => true
  end.

Definition list_of (check : pyval -> bool) (v : pyval) : bool :=
  match v with
  | PList l => forallb check l
  | _ => false
  end.

Definition well_formed_attribute (attr : pyval) : bool :=
  match field "name" attr, field "type" attr with
  | Some (PStr _), Some (PStr _) => true
  | _, _ => false
  end.

Definition well_formed_classification (classification : pyval) : bool :=
  match classification with
  | PDict items => optional (list_of is_str) (dict_get (PStr "compliance") items)
  | _ => false
  end.

Definition well_formed_entity (entity : pyval) : bool :=
  match field "name" entity with
  | Some (PStr _) =>
      optional (list_of well_formed_attribute) (field "attributes" entity)
      && optional well_formed_classification
           (field "taxonomy_classification" entity)
  | _ => false
  end.

Definition well_formed_info (info : pyval) : bool :=
  match info with
  | PDict items => optional is_str (dict_get (PStr "domain") items)
  | _ => false
  end.

Definition well_formed_model (model : pyval) : bool :=
  match model with
  | PDict items =>
      optional well_formed_info (dict_get (PStr "model") items)
      && optional (list_of well_formed_entity) (dict_get (PStr "entities") items)
  | _ => false
  end.

(** ** Sample models *)

Module Sample.

Definition attribute (name type : string) (more : pydict) : pyval :=
  PDict (["name" :-> PStr name; "type" :-> PStr type] ++ more).

(** The example of the specification. *)
Definition user : pyval :=
  PDict
    [ "name" :-> PStr "User";
      "attributes" :-> PList
        [ attribute "id" "uuid" ["required" :-> PBool true];
          attribute "email" "email" ["required" :-> PBool true] ] ].

Definition user_account : pyval :=
  PDict
    [ "model" :-> PDict
        [ "domain" :-> PStr "user_account"; "version" :-> PStr "2.0.0" ];
      "entities" :-> PList [user] ].

(** A model without a [model] record. *)
Definition anonymous : pyval := PDict ["entities" :-> PList []].

(** Two entities whose names differ in case only. *)
Definition lowercase_user : pyval :=
  PDict ["name" :-> PStr "user"; "attributes" :-> PList []].

Definition case_clash : pyval :=
  PDict ["entities" :-> PList [user; lowercase_user]].

(** An attribute whose [max_length] is zero, and one with a limit. *)
Definition code_items : pydict :=
  [ "name" :-> PStr "code"; "type" :-> PStr "string"; "max_length" :-> PInt 0 ].

Definition nickname_items : pydict :=
  [ "name" :-> PStr "nickname"; "type" :-> PStr "string";
    "max_length" :-> PInt 40 ].

Definition profile : pyval :=
  PDict
    [ "name" :-> PStr "Profile";
      "attributes" :-> PList
        [ PDict nickname_items;
          attribute "bio" "text" [];
          attribute "age" "integer" ["required" :-> PBool false];
          PDict code_items ] ].

(** Two entities with compliance lists. *)
Definition customer : pyval :=
  PDict
    [ "name" :-> PStr "Customer";
      "attributes" :-> PList [attribute "id" "uuid" ["required" :-> PBool true]];
      "taxonomy_classification" :-> PDict
        [ "compliance" :-> PList [PStr "GDPR"] ] ].

Definition patient : pyval :=
  PDict
    [ "name" :-> PStr "Patient";
      "attributes" :-> PList [attribute "id" "uuid" ["required" :-> PBool true]];
      "taxonomy_classification" :-> PDict
        [ "compliance" :-> PList [PStr "HIPAA"; PStr "GDPR"] ] ].

Definition clinic : pyval :=
  PDict
    [ "model" :-> PDict
        [ "domain" :-> PStr "clinic"; "version" :-> PStr "1.2.0" ];
      "entities" :-> PList [customer; patient] ].

Definition taxonomy_mapping : pydict :=
  [ "classification" :-> PStr "restricted" ].

Definition other_taxonomy_mapping : pydict :=
  [ "owner" :-> PStr "platform"; "tier" :-> PInt 3 ].

(** The texts on the sample disk and what [json.load] makes of them. *)
Definition load (text : string) : option pyval :=
  if text =? "text of user.model.json" then Some user_account
  else if text =? "text of clinic.model.json" then Some clinic
  else if text =? "text of clash.model.json" then Some case_clash
  else if text =? "text of anonymous.model.json" then Some anonymous
  else if text =? "text of taxonomy.json" then Some (PDict taxonomy_mapping)
  else None.

Definition disk : filesystem :=
  fun path =>
    if path =? "models/user.model.json"
      then Some (Text "text of user.model.json")
    else if path =? "models/clinic.model.json"
      then Some (Text "text of clinic.model.json")
    else if path =? "models/clash.model.json"
      then Some (Text "text of clash.model.json")
    else if path =? "models/anonymous.model.json"
      then Some (Text "text of anonymous.model.json")
    else if path =? "taxonomy.json" then Some (Text "text of taxonomy.json")
    else if path =? "models/broken.json" then Some (Text "{ not json")
    else if path =? "models" then Some Unreadable
    else None.

(** Every path is the name of its place. *)
Definition here (path : string) : string := path.

(** Two orders in which a process may iterate over a set. *)
Definition insertion_order (s : pyset) : list pyval := s.
Definition reverse_order (s : pyset) : list pyval := rev s.

Definition dump (spec : pyval) : dumped := Dumped "yaml".

Definition opened (fs : filesystem) (output : string) : filesystem * bool :=
  (fs, true).

Definition help : string := "usage: generate_openapi.py".

Definition utf8_console (line : string) : bool := true.

Definition with_taxonomy : OpenAPIGenerator :=
  {| taxonomy := PDict taxonomy_mapping |}.

Definition without_taxonomy : OpenAPIGenerator :=
  {| taxonomy := PDict [] |}.

Definition command_line (model output : string) : arguments :=
  {| arg_help := false;
     arg_model := Some model;
     arg_taxonomy := None;
     arg_output := Some output |}.

End Sample.

(** ** Further readings of the model and further samples *)

(** What the [required] test of the attribute loop sees: the truth value
    of the field, of any type, and false without the field. *)
Definition counts_as_required (attr : pyval) : bool :=
  truthy (match field "required" attr with
          | Some x => x
          | None => PBool false
          end).

(** The name of the last entity whose lowercased name is [l]. *)
Fixpoint last_lowered (str_lower : string -> string) (l : string)
    (entities : list pyval) : option string :=
  match entities with
  | [] => None
  | e :: rest =>
      match last_lowered str_lower l rest with
      | Some m => Some m
      | None =>
          match declared_name e with
          | Some m => if str_lower m =? l then Some m else None
          | None => None
          end
      end
  end.

(** The exception the body of the attribute loop raises on an attribute
    that is not a record, lacks a name or a type, or has a list or a
    dictionary for one of them. *)
Inductive attribute_fault : pyval -> exn -> Prop :=
| attribute_not_a_record (v : pyval) :
    (forall d, v <> PDict d) -> attribute_fault v TypeError
| attribute_without_name (d : pydict) :
    dict_get (PStr "name") d = None -> attribute_fault (PDict d) KeyError
| attribute_without_type (d : pydict) (n : pyval) :
    dict_get (PStr "name") d = Some n ->
    dict_get (PStr "type") d = None ->
    attribute_fault (PDict d) KeyError
| attribute_type_unhashable (d : pydict) (n t : pyval) :
    dict_get (PStr "name") d = Some n ->
    dict_get (PStr "type") d = Some t ->
    hashable t = false ->
    attribute_fault (PDict d) TypeError
| attribute_name_unhashable (d : pydict) (n : pyval) (t : string) :
    dict_get (PStr "name") d = Some n ->
    dict_get (PStr "type") d = Some (PStr t) ->
    hashable n = false ->
    attribute_fault (PDict d) TypeError.

(** The exception the body of the entity loop raises on an entity that is
    not a record, lacks a name, or has a name that is not a string. *)
Inductive entity_fault : pyval -> exn -> Prop :=
| entity_not_a_record (v : pyval) :
    (forall d, v <> PDict d) -> entity_fault v TypeError
| entity_without_name (d : pydict) :
    dict_get (PStr "name") d = None -> entity_fault (PDict d) KeyError
| entity_name_not_a_string (d : pydict) (n : pyval) :
    dict_get (PStr "name") d = Some n ->
    is_str n = false ->
    entity_fault (PDict d) AttributeError.

(** [None] and the numbers: the values a loop cannot run over. *)
Definition not_iterable (v : pyval) : bool :=
  match v with
  | PNone | PBool _ | PInt _ | PFloat _ => true
  | _ => false
  end.


(** A string without underscores. *)
Fixpoint free_of_underscores (s : string) : bool :=
  match s with
  | EmptyString => true
  | String c rest => negb (Ascii.eqb c "_") && free_of_underscores rest
  end.

Module More.

(** An entity whose attributes carry [required] values of several types,
    and two attributes of one name. *)
Definition loose_flags : pyval :=
  PDict
    [ "name" :-> PStr "Flags";
      "attributes" :-> PList
        [ Sample.attribute "a" "string" ["required" :-> PStr "false"];
          Sample.attribute "b" "string" ["required" :-> PInt 0];
          Sample.attribute "c" "string" ["required" :-> PInt 1];
          Sample.attribute "a" "integer" [];
          Sample.attribute "d" "string" ["required" :-> PNone] ];
      "taxonomy_classification" :-> PDict ["level" :-> PStr "internal"] ].

(** Attributes the loop stops at. *)
Definition nameless_attribute : pyval := PDict ["type" :-> PStr "string"].

Definition broken_entity : pyval :=
  PDict
    [ "name" :-> PStr "Broken";
      "attributes" :-> PList
        [ Sample.attribute "id" "uuid" []; nameless_attribute;
          Sample.attribute "later" "string" [] ] ].

(** Entities the loop stops at. *)
Definition nameless_entity : pyval := PDict ["attributes" :-> PList []].

Definition half_broken : pyval :=
  PDict
    [ "model" :-> PDict ["domain" :-> PStr "shop"];
      "entities" :-> PList [Sample.user; nameless_entity; Sample.customer] ].

(** Two models with the same entity names and nothing else in common. *)
Definition bare_clinic : pyval :=
  PDict
    [ "entities" :-> PList
        [ PDict ["name" :-> PStr "Customer"];
          PDict ["name" :-> PStr "Patient"] ] ].

(** A model whose entities are an empty string. *)
Definition hollow : pyval :=
  PDict ["model" :-> PDict ["version" :-> PInt 7]; "entities" :-> PStr ""].

(** Three entities, two of which share a lowercased name. *)
Definition order_entity : pyval := PDict ["name" :-> PStr "Order"].
Definition shouting_user : pyval := PDict ["name" :-> PStr "USER"].

Definition shop : pyval :=
  PDict ["entities" :-> PList [Sample.user; order_entity; shouting_user]].

Definition with_taxonomy_option (model taxonomy output : string) : arguments :=
  {| arg_help := false;
     arg_model := Some model;
     arg_taxonomy := Some taxonomy;
     arg_output := Some output |}.

(** A disk whose taxonomy file is not JSON. *)
Definition disk_with_broken_taxonomy : filesystem :=
  fun path =>
    if path =? "taxonomy.json" then Some (Text "{ not json")
    else Sample.disk path.

(** A model whose description is a list in a list, four hundred times:
    JSON that [json.load] reads and the generator copies into [info]. *)
Definition nested (levels : nat) : pyval :=
  Nat.iter levels (fun v => PList [v]) (PList []).

Definition deep_model : pyval :=
  PDict
    [ "model" :-> PDict
        [ "domain" :-> PStr "deep"; "description" :-> nested 400 ];
      "entities" :-> PList [] ].

(** A disk with a taxonomy file that holds the empty mapping and with the
    deep model, and its reader. *)
Definition disk_with_more_files : filesystem :=
  fun path =>
    if path =? "empty.json" then Some (Text "text of empty.json")
    else if path =? "models/deep.model.json"
      then Some (Text "text of deep.model.json")
    else Sample.disk path.

Definition load (text : string) : option pyval :=
  if text =? "text of empty.json" then Some (PDict [])
  else if text =? "text of deep.model.json" then Some deep_model
  else Sample.load text.


(** An output that cannot show the confirmation. *)
Definition latin_console (line : string) : bool := is_ascii line.

End More.

(** * Properties *)

Section Properties.

(** The two string methods of the interpreter and the places of the
    paths: the properties hold whatever they are. *)
Variable str_lower : string -> string.
Variable str_title : string -> string.
Variable locate : string -> string.

Set Default Proof Using "Type".

(** ** Results *)

Lemma bind_ok {A B : Type} (r : result A) (k : A -> result B) (b : B) :
  bind r k = Ok b -> exists a, r = Ok a /\ k a = Ok b.
Proof.
  destruct r as [a | e]; simpl; intros H; [eauto | discriminate].
Qed.

Tactic Notation "unbind" hyp(H) "as" ident(a) ident(Ha) :=
  apply bind_ok in H; destruct H as [a [Ha H]].

(** ** Dictionaries with string keys *)

Lemma py_eq_str_inv (a : string) (v : pyval) :
  py_eq (PStr a) v = true -> v = PStr a.
Proof.
  destruct v; simpl; try discriminate.
  intros H; apply String.eqb_eq in H; subst; reflexivity.
Qed.

Lemma py_eq_str_refl (a : string) : py_eq (PStr a) (PStr a) = true.
Proof. simpl; apply String.eqb_refl. Qed.

Lemma dict_get_set_same (a : string) (v : pyval) (d : pydict) :
  dict_get (PStr a) (dict_set (PStr a) v d) = Some v.
Proof.
  induction d as [| [k x] d IH]; cbn [dict_get dict_set].
  - rewrite py_eq_str_refl; reflexivity.
  - destruct (py_eq (PStr a) k) eqn:E; cbn [dict_get]; rewrite E;
      [reflexivity | exact IH].
Qed.

Lemma dict_get_set_other (a b : string) (v : pyval) (d : pydict) :
  a <> b -> dict_get (PStr b) (dict_set (PStr a) v d) = dict_get (PStr b) d.
Proof.
  intros Hab.
  assert (F : py_eq (PStr b) (PStr a) = false)
    by (simpl; apply String.eqb_neq; congruence).
  induction d as [| [k x] d IH]; cbn [dict_get dict_set].
  - rewrite F; reflexivity.
  - destruct (py_eq (PStr a) k) eqn:E; cbn [dict_get].
    + apply py_eq_str_inv in E; subst k; rewrite F; reflexivity.
    + rewrite IH; reflexivity.
Qed.

Lemma dict_keys_set (k v : pyval) (d : pydict) :
  dict_keys (dict_set k v d) =
  if existsb (py_eq k) (dict_keys d) then dict_keys d else dict_keys d ++ [k].
Proof.
  induction d as [| [k' x] d IH]; [reflexivity |].
  cbn [dict_set dict_keys map fst existsb].
  destruct (py_eq k k'); cbn [map fst orb]; [reflexivity |].
  fold (dict_keys d); fold (dict_keys (dict_set k v d)).
  rewrite IH; destruct (existsb (py_eq k) (dict_keys d)); reflexivity.
Qed.

Lemma existsb_py_eq_str (n : string) (l : list string) :
  existsb (py_eq (PStr n)) (map PStr l) = existsb (String.eqb n) l.
Proof.
  induction l as [| x l IH]; simpl; [reflexivity | rewrite IH; reflexivity].
Qed.

(** ** Path templates *)

Lemma chars_app (a b : string) :
  list_ascii_of_string (a ++ b) =
  list_ascii_of_string a ++ list_ascii_of_string b.
Proof.
  induction a as [| c a IH]; simpl; [reflexivity | rewrite IH; reflexivity].
Qed.

Lemma chars_inj (a b : string) :
  list_ascii_of_string a = list_ascii_of_string b -> a = b.
Proof.
  intros H.
  rewrite <- (string_of_list_ascii_of_string a), H.
  apply string_of_list_ascii_of_string.
Qed.

Lemma app_same_length {A : Type} (a b x y : list A) :
  List.length a = List.length b -> a ++ x = b ++ y -> a = b.
Proof.
  revert b; induction a as [| c a IH]; intros [| c' b] Hlen H;
    simpl in *; try discriminate; [reflexivity |].
  injection H as -> H; f_equal; apply IH; [lia | exact H].
Qed.

Lemma base_path_chars (l : string) :
  list_ascii_of_string (base_path_of l) =
  ("/"%char :: list_ascii_of_string l) ++ ["s"%char].
Proof. unfold base_path_of; simpl; rewrite chars_app; reflexivity. Qed.

Lemma entity_path_chars (l : string) :
  list_ascii_of_string (entity_path_of l) =
  "/"%char :: list_ascii_of_string l ++
    "s"%char :: "/"%char :: "{"%char :: list_ascii_of_string l ++
    ["I"%char; "d"%char; "}"%char].
Proof.
  unfold entity_path_of; rewrite chars_app, base_path_chars, chars_app, chars_app.
  simpl; rewrite <- app_assoc; reflexivity.
Qed.

Lemma base_path_inj (a b : string) :
  base_path_of a = base_path_of b -> a = b.
Proof.
  intros H; apply (f_equal list_ascii_of_string) in H.
  rewrite !base_path_chars in H.
  apply app_inv_tail in H; injection H as H; apply chars_inj; exact H.
Qed.

Lemma base_path_not_entity_path (a b : string) :
  base_path_of a <> entity_path_of b.
Proof.
  intros H; apply (f_equal list_ascii_of_string) in H.
  rewrite base_path_chars, entity_path_chars in H.
  change ("/"%char :: list_ascii_of_string b ++
          "s"%char :: "/"%char :: "{"%char :: list_ascii_of_string b ++
          ["I"%char; "d"%char; "}"%char])
    with (("/"%char :: list_ascii_of_string b) ++
          ("s"%char :: "/"%char :: "{"%char :: list_ascii_of_string b) ++
          ["I"%char; "d"%char] ++ ["}"%char]) in H.
  rewrite !app_assoc in H.
  apply app_inj_tail in H; destruct H as [_ H]; discriminate.
Qed.

Lemma entity_path_inj (a b : string) :
  entity_path_of a = entity_path_of b -> a = b.
Proof.
  intros H; apply (f_equal list_ascii_of_string) in H.
  rewrite !entity_path_chars in H; injection H as H.
  apply chars_inj; apply (app_same_length _ _ _ _) with (2 := H).
  apply (f_equal (@List.length ascii)) in H.
  rewrite !length_app in H; simpl in H; rewrite !length_app in H; simpl in H.
  lia.
Qed.

Lemma base_path_eqb (a b : string) :
  (base_path_of a =? base_path_of b) = (a =? b).
Proof.
  destruct (String.eqb_spec a b) as [-> | N]; [apply String.eqb_refl |].
  apply String.eqb_neq; intros H; apply N, base_path_inj, H.
Qed.

Lemma entity_path_eqb (a b : string) :
  (entity_path_of a =? entity_path_of b) = (a =? b).
Proof.
  destruct (String.eqb_spec a b) as [-> | N]; [apply String.eqb_refl |].
  apply String.eqb_neq; intros H; apply N, entity_path_inj, H.
Qed.

Lemma base_entity_eqb (a b : string) :
  (base_path_of a =? entity_path_of b) = false.
Proof. apply String.eqb_neq, base_path_not_entity_path. Qed.

Lemma entity_base_eqb (a b : string) :
  (entity_path_of a =? base_path_of b) = false.
Proof.
  apply String.eqb_neq; intros H; symmetry in H.
  exact (base_path_not_entity_path _ _ H).
Qed.

Lemma generate_entity_paths_items (entity_name schema_name : string) :
  _generate_entity_paths entity_name schema_name =
  [ base_path_of schema_name :-> collection_item entity_name;
    entity_path_of schema_name :-> single_item entity_name schema_name ].
Proof.
  unfold _generate_entity_paths; cbn [dict_set py_eq].
  rewrite entity_base_eqb; reflexivity.
Qed.

Lemma base_key_seen (l : string) (seen : list string) :
  existsb (py_eq (PStr (base_path_of l))) (flat_map path_keys seen) =
  existsb (String.eqb l) seen.
Proof.
  induction seen as [| x seen IH]; [reflexivity |].
  cbn [flat_map path_keys app existsb py_eq].
  rewrite IH, base_path_eqb, base_entity_eqb; reflexivity.
Qed.

Lemma entity_key_seen (l : string) (seen : list string) :
  existsb (py_eq (PStr (entity_path_of l))) (flat_map path_keys seen) =
  existsb (String.eqb l) seen.
Proof.
  induction seen as [| x seen IH]; [reflexivity |].
  cbn [flat_map path_keys app existsb py_eq].
  rewrite IH, entity_path_eqb, entity_base_eqb; reflexivity.
Qed.

Lemma paths_keys_update (entity_name l : string) (paths : pydict)
    (seen : list string) :
  dict_keys paths = flat_map path_keys seen ->
  dict_keys (dict_update paths (_generate_entity_paths entity_name l)) =
  flat_map path_keys (add_new seen l).
Proof.
  intros Hkeys.
  rewrite generate_entity_paths_items.
  unfold dict_update; cbn [fold_left fst snd].
  rewrite !dict_keys_set, Hkeys, base_key_seen.
  unfold add_new.
  destruct (existsb (String.eqb l) seen) eqn:E.
  - rewrite entity_key_seen, E; reflexivity.
  - rewrite existsb_app, entity_key_seen, E.
    cbn [existsb py_eq orb]; rewrite entity_base_eqb.
    rewrite flat_map_app; cbn [flat_map path_keys app].
    rewrite <- app_assoc; reflexivity.
Qed.

Lemma schemas_keys_set (n : string) (schema : pyval) (schemas : pydict)
    (seen : list string) :
  dict_keys schemas = map PStr seen ->
  dict_keys (dict_set (PStr n) schema schemas) = map PStr (add_new seen n).
Proof.
  intros Hkeys; rewrite dict_keys_set, Hkeys, existsb_py_eq_str.
  unfold add_new; destruct (existsb (String.eqb n) seen); [reflexivity |].
  rewrite map_app; reflexivity.
Qed.

(** ** Distinct names *)

Lemma existsb_eqb_in (x : string) (l : list string) :
  existsb (String.eqb x) l = true <-> In x l.
Proof.
  rewrite existsb_exists; split.
  - intros [y [Hy E]]; apply String.eqb_eq in E; subst; exact Hy.
  - intros H; exists x; split; [exact H | apply String.eqb_refl].
Qed.

Lemma existsb_eqb_not_in (x : string) (l : list string) :
  existsb (String.eqb x) l = false <-> ~ In x l.
Proof.
  rewrite <- existsb_eqb_in; destruct (existsb (String.eqb x) l); split;
    congruence.
Qed.

Lemma add_new_in (seen : list string) (x y : string) :
  In y (add_new seen x) <-> In y seen \/ y = x.
Proof.
  unfold add_new; destruct (existsb (String.eqb x) seen) eqn:E.
  - apply existsb_eqb_in in E; split; [auto | intros [H | ->]; assumption].
  - rewrite in_app_iff; simpl; split.
    + intros [H | [H | []]]; [left; exact H | right; symmetry; exact H].
    + intros [H | H]; [left; exact H | right; left; symmetry; exact H].
Qed.

Lemma add_new_nodup (seen : list string) (x : string) :
  NoDup seen -> NoDup (add_new seen x).
Proof.
  intros H; unfold add_new; destruct (existsb (String.eqb x) seen) eqn:E;
    [exact H |].
  apply existsb_eqb_not_in in E.
  apply NoDup_app; [exact H | repeat constructor; intros [] |].
  intros y Hy [<- | []]; exact (E Hy).
Qed.

Lemma fold_add_new_in (l seen : list string) (y : string) :
  In y (fold_left add_new l seen) <-> In y seen \/ In y l.
Proof.
  revert seen; induction l as [| x l IH]; intros seen; simpl.
  - split; [intros H; left; exact H | intros [H | []]; exact H].
  - rewrite IH, add_new_in; split.
    + intros [[H | H] | H];
        [left; exact H | right; left; symmetry; exact H | right; right; exact H].
    + intros [H | [H | H]];
        [left; left; exact H | left; right; symmetry; exact H | right; exact H].
Qed.

Lemma fold_add_new_nodup (l seen : list string) :
  NoDup seen -> NoDup (fold_left add_new l seen).
Proof.
  revert seen; induction l as [| x l IH]; intros seen H; simpl;
    [exact H | apply IH, add_new_nodup, H].
Qed.

Lemma fold_add_new_fresh (l seen : list string) :
  NoDup (seen ++ l) -> fold_left add_new l seen = seen ++ l.
Proof.
  revert seen; induction l as [| x l IH]; intros seen H; simpl;
    [symmetry; apply app_nil_r |].
  assert (E : existsb (String.eqb x) seen = false).
  { apply existsb_eqb_not_in; intros Hin.
    apply NoDup_remove_2 in H; apply H, in_or_app; left; exact Hin. }
  unfold add_new at 2; rewrite E.
  rewrite IH; rewrite <- app_assoc; [reflexivity | exact H].
Qed.

Lemma distinct_in (l : list string) (y : string) : In y (distinct l) <-> In y l.
Proof.
  unfold distinct; rewrite fold_add_new_in; simpl.
  split; [intros [[] | H]; exact H | intros H; right; exact H].
Qed.

Lemma distinct_nodup (l : list string) : NoDup (distinct l).
Proof. apply fold_add_new_nodup; constructor. Qed.

Lemma distinct_of_nodup (l : list string) : NoDup l -> distinct l = l.
Proof. intros H; unfold distinct; rewrite fold_add_new_fresh; auto. Qed.

Lemma nodup_map_lower (names : list string) :
  NoDup (map str_lower names) -> NoDup names.
Proof.
  induction names as [| n names IH]; intros H; [constructor |].
  inversion H as [| x l Hx Hl]; subst; constructor; [| apply IH, Hl].
  intros Hin; apply Hx, in_map, Hin.
Qed.

(** ** The entity loop *)

Lemma py_getitem_ok (v : pyval) (k : string) (x : pyval) :
  py_getitem v k = Ok x -> exists d, v = PDict d /\ dict_get (PStr k) d = Some x.
Proof.
  destruct v; simpl; try discriminate.
  destruct (dict_get (PStr k) d) eqn:E; intros H; inversion H; subst; eauto.
Qed.

Lemma py_getitem_field (v : pyval) (k : string) (x : pyval) :
  py_getitem v k = Ok x -> field k v = Some x.
Proof.
  intros H; apply py_getitem_ok in H; destruct H as [d [-> H]]; exact H.
Qed.

Lemma as_str_ok (v : pyval) (s : string) : as_str v = Ok s -> v = PStr s.
Proof. destruct v; simpl; intros H; inversion H; reflexivity. Qed.

Lemma entity_step_ok (schemas paths schemas' paths' : pydict) (entity : pyval) :
  entity_step str_lower (schemas, paths) entity = Ok (schemas', paths') ->
  exists n schema,
    declared_name entity = Some n /\
    _generate_entity_schema entity = Ok schema /\
    schemas' = dict_set (PStr n) schema schemas /\
    paths' = dict_update paths (_generate_entity_paths n (str_lower n)).
Proof.
  unfold entity_step; intros H.
  unbind H as name Ename.
  unbind H as entity_name Estr.
  unbind H as schema Eschema.
  apply py_getitem_field in Ename; apply as_str_ok in Estr; subst name.
  inversion H; subst; clear H.
  exists entity_name, schema; unfold declared_name; rewrite Ename; auto.
Qed.

Lemma entity_loop_keys (items : list pyval) :
  forall (schemas paths schemas' paths' : pydict) (seen lowered : list string),
    dict_keys schemas = map PStr seen ->
    dict_keys paths = flat_map path_keys lowered ->
    for_each (entity_step str_lower) items (schemas, paths) = Ok (schemas',
      paths') ->
    exists names,
      named items names /\
      dict_keys schemas' = map PStr (fold_left add_new names seen) /\
      dict_keys paths' =
        flat_map path_keys (fold_left add_new (map str_lower names) lowered).
Proof.
  induction items as [| entity items IH];
    intros schemas paths schemas' paths' seen lowered Hs Hp H.
  - simpl in H; inversion H; subst; exists []; repeat split; assumption.
  - cbn [for_each] in H; unbind H as x E; destruct x as [schemas1 paths1].
    apply entity_step_ok in E; destruct E as [n [schema [Hn [_ [-> ->]]]]].
    apply (IH _ _ _ _ (add_new seen n) (add_new lowered (str_lower n))) in H.
    + destruct H as [names [Hnamed [Hs' Hp']]].
      exists (n :: names); unfold named in *; simpl.
      rewrite Hn, Hnamed; auto.
    + apply schemas_keys_set, Hs.
    + apply paths_keys_update, Hp.
Qed.

Lemma entity_loop_last_wins (items : list pyval) :
  forall (schemas paths schemas' paths' : pydict) (n : string),
    for_each (entity_step str_lower) items (schemas, paths) = Ok (schemas',
      paths') ->
    match last_named n items with
    | Some e =>
        exists schema,
          _generate_entity_schema e = Ok schema /\
          dict_get (PStr n) schemas' = Some schema
    | None => dict_get (PStr n) schemas' = dict_get (PStr n) schemas
    end.
Proof.
  induction items as [| entity items IH]; intros schemas paths schemas' paths' n H.
  - simpl in H; inversion H; subst; reflexivity.
  - cbn [for_each] in H; unbind H as x E; destruct x as [schemas1 paths1].
    apply entity_step_ok in E; destruct E as [m [schema [Hm [Hschema [-> ->]]]]].
    specialize (IH _ _ _ _ n H); cbn [last_named].
    destruct (last_named n items) as [e |]; [exact IH |].
    rewrite Hm; destruct (String.eqb_spec m n) as [-> | N].
    + exists schema; split; [exact Hschema |].
      rewrite IH; apply dict_get_set_same.
    + rewrite IH; apply dict_get_set_other, N.
Qed.

(** ** Title case *)

Lemma to_lower_idempotent (c : ascii) : to_lower (to_lower c) = to_lower c.
Proof. destruct c as [[] [] [] [] [] [] [] []]; reflexivity. Qed.

Lemma to_lower_to_upper (c : ascii) : to_lower (to_upper c) = to_lower c.
Proof. destruct c as [[] [] [] [] [] [] [] []]; reflexivity. Qed.

Lemma is_cased_to_lower (c : ascii) : is_cased (to_lower c) = is_cased c.
Proof. destruct c as [[] [] [] [] [] [] [] []]; reflexivity. Qed.

Lemma is_cased_to_upper (c : ascii) : is_cased (to_upper c) = is_cased c.
Proof. destruct c as [[] [] [] [] [] [] [] []]; reflexivity. Qed.

Lemma to_lower_not_upper (c : ascii) : is_upper (to_lower c) = false.
Proof. destruct c as [[] [] [] [] [] [] [] []]; reflexivity. Qed.

Lemma to_upper_not_lower (c : ascii) : is_lower (to_upper c) = false.
Proof. destruct c as [[] [] [] [] [] [] [] []]; reflexivity. Qed.

Lemma title_from_length (s : string) :
  forall p, String.length (ascii_title_from p s) = String.length s.
Proof. induction s as [| c s IH]; intros p; simpl; [| rewrite IH]; reflexivity. Qed.

(** [ascii_title] changes the case of letters and nothing else. *)
Lemma lower_title_from (s : string) :
  forall p, ascii_lower (ascii_title_from p s) = ascii_lower s.
Proof.
  induction s as [| c s IH]; intros p; simpl; [reflexivity |].
  rewrite IH; destruct p;
    [rewrite to_lower_idempotent | rewrite to_lower_to_upper]; reflexivity.
Qed.

(** The result of [ascii_title] is in title case. *)
Lemma title_from_titlecased (s : string) :
  forall p, titlecased_from p (ascii_title_from p s) = true.
Proof.
  induction s as [| c s IH]; intros p; simpl; [reflexivity |].
  destruct p.
  - rewrite to_lower_not_upper, is_cased_to_lower; apply IH.
  - rewrite to_upper_not_lower, is_cased_to_upper; apply IH.
Qed.

(** ** The assembled document *)

Lemma py_get_ok (v : pyval) (k : string) (default x : pyval) :
  py_get v k default = Ok x ->
  exists d, v = PDict d /\
            x = match dict_get (PStr k) d with Some y => y | None => default end.
Proof.
  destruct v; simpl; try discriminate.
  destruct (dict_get (PStr k) d) eqn:E; intros H; inversion H; subst;
    exists d; rewrite ?E; auto.
Qed.

Lemma py_get_dict (d : pydict) (k : string) (default : pyval) :
  py_get (PDict d) k default =
  Ok (match dict_get (PStr k) d with Some y => y | None => default end).
Proof. simpl; destruct (dict_get (PStr k) d); reflexivity. Qed.

Lemma py_iter_iterated (v : pyval) (l : list pyval) :
  py_iter v = Ok l -> iterated v = l.
Proof. unfold iterated; intros ->; reflexivity. Qed.

Section Assembled.

Variable set_iteration : pyset -> list pyval.

(** What a successful [generate_from_loaded] has computed. *)
Lemma generate_from_loaded_ok (self : OpenAPIGenerator) (model doc : pyval) :
  generate_from_loaded str_lower str_title set_iteration self model = Ok doc ->
  exists (model_items : pydict) (domain : string) (version description : pyval)
         (filled : pydict * pydict),
    model = PDict model_items /\
    py_get (model_info_of model) "domain" (PStr "API") = Ok (PStr domain) /\
    py_get (model_info_of model) "version" (PStr "1.0.0") = Ok version /\
    py_get (model_info_of model) "description" (PStr "") = Ok description /\
    for_each (entity_step str_lower) (entities_of model) ([], []) = Ok filled /\
    let openapi_spec :=
      openapi_spec_of (str_title (replace "_" " " domain) ++ " API")
                      version description filled in
    if truthy (taxonomy self) then
      exists compliance,
        _extract_compliance_requirements set_iteration
          (match field "entities" model with Some v => v | None => PList [] end)
          = Ok compliance /\
        doc = PDict (openapi_spec ++
                     [ "x-taxonomy" :-> PDict
                         [ "domain" :-> field_or_none "domain" (model_info_of model);
                           "version" :-> field_or_none "version" (model_info_of model);
                           "compliance" :-> compliance ] ])
    else doc = PDict openapi_spec.
Proof.
  unfold generate_from_loaded; intros H.
  unbind H as model_info Einfo.
  unbind H as entities Eentities.
  unbind H as domain0 Edomain0.
  unbind H as domain Edomain.
  unbind H as version Eversion.
  unbind H as description Edescription.
  unbind H as items Eitems.
  unbind H as filled Efilled.
  apply py_get_ok in Einfo; destruct Einfo as [model_items [-> Einfo]].
  rewrite py_get_dict in Eentities; inversion Eentities; subst entities;
    clear Eentities.
  assert (Hinfo : model_info_of (PDict model_items) = model_info).
  { unfold model_info_of, field; rewrite Einfo.
    destruct (dict_get (PStr "model") model_items); reflexivity. }
  apply as_str_ok in Edomain; subst domain0.
  apply py_iter_iterated in Eitems.
  assert (Hentities : entities_of (PDict model_items) = items).
  { unfold entities_of, field; rewrite <- Eitems.
    destruct (dict_get (PStr "entities") model_items); reflexivity. }
  exists model_items, domain, version, description, filled.
  rewrite Hinfo, Hentities.
  repeat (split; [assumption || reflexivity |]).
  cbv zeta.
  destruct (truthy (taxonomy self)).
  - unbind H as domain1 Edomain1.
    unbind H as version1 Eversion1.
    unbind H as compliance Ecompliance.
    exists compliance; split.
    + unfold field; exact Ecompliance.
    + inversion H; subst doc; clear H.
      apply py_get_ok in Edomain0; destruct Edomain0 as [info_items [-> _]].
      rewrite py_get_dict in Edomain1, Eversion1.
      inversion Edomain1; inversion Eversion1; reflexivity.
  - inversion H; reflexivity.
Qed.

End Assembled.

(** ** Schemas and paths of a model *)

Lemma path_keys_length (l : list string) :
  List.length (flat_map path_keys l) = 2 * List.length l.
Proof. induction l as [| x l IH]; simpl; [reflexivity | rewrite IH; lia]. Qed.

Lemma named_length (entities : list pyval) (names : list string) :
  named entities names -> List.length names = List.length entities.
Proof.
  unfold named; intros H; apply (f_equal (@List.length _)) in H.
  rewrite !length_map in H; symmetry; exact H.
Qed.

Lemma dict_keys_length (d : pydict) : List.length (dict_keys d) = List.length d.
Proof. apply length_map. Qed.

(** C1, amended.  A generated document has one schema for every distinct
    entity name, under that name and in the order of first declaration,
    made from the last entity of the name; it has two paths, the
    collection path and the item path, for every distinct lowercased
    entity name.  A model of N entities whose lowercased names are pairwise
    distinct has N schemas and 2N paths. *)
Theorem schemas_and_paths_of_distinct_names :
  forall (json_load : string -> option pyval)
         (set_iteration : pyset -> list pyval) (self : OpenAPIGenerator)
         (fs : filesystem) (model_file : string) (doc : pyval),
    generate_from_model json_load str_lower str_title set_iteration locate
      self fs model_file = Ok doc ->
    exists (model : pyval) (names : list string) (schemas paths : pydict),
      open_json json_load locate fs model_file = Ok model /\
      named (entities_of model) names /\
      lookup_path ["components"; "schemas"] doc = Ok (PDict schemas) /\
      lookup_path ["paths"] doc = Ok (PDict paths) /\
      dict_keys schemas = map PStr (distinct names) /\
      dict_keys paths = flat_map path_keys (distinct (map str_lower names)) /\
      (forall n e,
          last_named n (entities_of model) = Some e ->
          exists schema,
            _generate_entity_schema e = Ok schema /\
            dict_get (PStr n) schemas = Some schema) /\
      List.length schemas = List.length (distinct names) /\
      List.length paths = 2 * List.length (distinct (map str_lower names)) /\
      (NoDup (map str_lower names) ->
       List.length schemas = List.length (entities_of model) /\
       List.length paths = 2 * List.length (entities_of model)).
Proof.
  intros json_load set_iteration self fs model_file doc H.
  unfold generate_from_model in H; unbind H as model Emodel.
  apply generate_from_loaded_ok in H.
  destruct H as (model_items & domain & version & description & filled
                 & Hmodel & _ & _ & _ & Hloop & Hdoc).
  destruct filled as [schemas paths].
  destruct (entity_loop_keys _ [] [] schemas paths [] [] eq_refl eq_refl Hloop)
    as [names [Hnamed [Hs Hp]]].
  fold (distinct names) in Hs; fold (distinct (map str_lower names)) in Hp.
  assert (Ls : List.length schemas = List.length (distinct names)).
  { rewrite <- dict_keys_length, Hs; apply length_map. }
  assert (Lp : List.length paths = 2 * List.length (distinct (map str_lower
    names))).
  { rewrite <- dict_keys_length, Hp; apply path_keys_length. }
  exists model, names, schemas, paths.
  split; [exact Emodel |].
  split; [exact Hnamed |].
  split; [cbv zeta in Hdoc; destruct (truthy (taxonomy self));
          [destruct Hdoc as [c [_ ->]] | subst doc]; reflexivity |].
  split; [cbv zeta in Hdoc; destruct (truthy (taxonomy self));
          [destruct Hdoc as [c [_ ->]] | subst doc]; reflexivity |].
  split; [exact Hs |]. split; [exact Hp |].
  split.
  { intros n e Hlast.
    pose proof (entity_loop_last_wins _ _ _ _ _ n Hloop) as W.
    rewrite Hlast in W; exact W. }
  split; [exact Ls |]. split; [exact Lp |].
  intros Hnodup.
  rewrite Ls, Lp, (distinct_of_nodup _ Hnodup),
    (distinct_of_nodup _ (nodup_map_lower _ Hnodup)), length_map,
    (named_length _ _ Hnamed).
  split; reflexivity.
Qed.

(** ** The title *)

Lemma replace_is_ascii (s : string) :
  is_ascii s = true -> is_ascii (replace "_" " " s) = true.
Proof.
  induction s as [| c s IH]; [reflexivity |]; cbn [is_ascii replace].
  intros H; apply andb_prop in H; destruct H as [Hc Hs].
  rewrite (IH Hs), andb_true_r.
  destruct (Ascii.eqb c "_"); [reflexivity | exact Hc].
Qed.

(** C2, amended.  The title of a generated document is the domain with
    underscores replaced by spaces, put in title case by [str.title] and
    followed by [" API"]; for a model without a domain the word [API]
    takes the place of the domain.  For a domain of ASCII characters the
    title case is that of the letters [A-Z] and [a-z]: the domain
    [user_account] gives [User Account API], and a model without a domain
    gives [Api API]. *)
Theorem title_of_domain :
  forall (json_load : string -> option pyval)
         (set_iteration : pyset -> list pyval) (self : OpenAPIGenerator)
         (fs : filesystem) (model_file : string) (doc : pyval),
    generate_from_model json_load str_lower str_title set_iteration locate
      self fs model_file = Ok doc ->
    exists model,
      open_json json_load locate fs model_file = Ok model /\
      (field "domain" (model_info_of model) = None \/
       exists d, field "domain" (model_info_of model) = Some (PStr d)) /\
      lookup_path ["info"; "title"] doc =
        Ok (PStr (str_title (replace "_" " " match domain_of model with
                                             | Some d => d
                                             | None => "API"
                                             end) ++ " API")%string) /\
      (titles_ascii str_title ->
       (forall d,
           domain_of model = Some d -> is_ascii d = true ->
           lookup_path ["info"; "title"] doc =
             Ok (PStr (ascii_title (replace "_" " " d) ++ " API")%string)) /\
       (domain_of model = Some "user_account" ->
        lookup_path ["info"; "title"] doc = Ok (PStr "User Account API")) /\
       (domain_of model = None ->
        lookup_path ["info"; "title"] doc = Ok (PStr "Api API"))).
Proof.
  intros json_load set_iteration self fs model_file doc H.
  unfold generate_from_model in H; unbind H as model Emodel.
  exists model; split; [exact Emodel |].
  apply generate_from_loaded_ok in H.
  destruct H as (model_items & domain & version & description & filled
                 & -> & Hdomain & _ & _ & _ & Hdoc).
  assert (Htitle : lookup_path ["info"; "title"] doc =
                   Ok (PStr (str_title (replace "_" " " domain) ++
                     " API")%string)).
  { cbv zeta in Hdoc; destruct (truthy (taxonomy self));
      [destruct Hdoc as [c [_ ->]] | subst doc]; reflexivity. }
  assert (Hshown : domain = match domain_of (PDict model_items) with
                            | Some d => d
                            | None => "API"
                            end /\
                   (field "domain" (model_info_of (PDict model_items)) = None \/
                    exists d, field "domain" (model_info_of (PDict model_items))
                              = Some (PStr d))).
  { unfold domain_of.
    apply py_get_ok in Hdomain;
      destruct Hdomain as [info_items [Hinfo Hdomain]].
    rewrite Hinfo; unfold field.
    destruct (dict_get (PStr "domain") info_items) as [d |].
    - subst d; split; [reflexivity | right; eauto].
    - inversion Hdomain; split; [reflexivity | left; reflexivity]. }
  destruct Hshown as [Hshown Hfield].
  split; [exact Hfield |].
  split; [rewrite <- Hshown; exact Htitle |].
  intros Hascii; rewrite Htitle, Hshown.
  split; [| split].
  - intros d -> Hd; rewrite (Hascii _ (replace_is_ascii _ Hd)); reflexivity.
  - intros ->; rewrite Hascii; reflexivity.
  - intros ->; rewrite Hascii; reflexivity.
Qed.

(** ** Properties of attributes *)

Lemma map_data_type_row (t : string) :
  _map_data_type (PStr t) =
  Ok match spec_type_row t with
     | Some (ty, Some format) =>
         PDict ["type" :-> PStr ty; "format" :-> PStr format]
     | Some (ty, None) => PDict ["type" :-> PStr ty]
     | None => PDict ["type" :-> PStr "string"]
     end.
Proof.
  unfold _map_data_type, table_get, spec_type_row, type_mapping, spec_type_table.
  cbn [hashable dict_get py_eq find fst snd option_map].
  repeat match goal with
         | |- context [(t =? ?k)%string] => destruct (t =? k)%string
         end; reflexivity.
Qed.

Lemma example_of_unrecognized (t : string) :
  spec_type_row t = None ->
  _generate_example_value (PStr t) = Ok (PStr "example").
Proof.
  unfold _generate_example_value, table_get, spec_type_row, examples,
    spec_type_table.
  cbn [hashable dict_get py_eq find fst snd option_map].
  repeat match goal with
         | |- context [(t =? ?k)%string] => destruct (t =? k)%string
         end; intros H; try discriminate H; reflexivity.
Qed.

Lemma example_is_ok (t : string) :
  exists example, _generate_example_value (PStr t) = Ok example.
Proof. unfold _generate_example_value, table_get; simpl; eauto. Qed.

(** The property made for a declared type follows the table, whatever
    else the attribute holds. *)
Lemma attribute_property_follows_table (attr_items : pydict)
    (declared : string) :
  exists property,
    attribute_property (PDict attr_items) (PStr declared) = Ok property /\
    follows_table declared property.
Proof.
  revert attr_items declared; intros d t.
  unfold attribute_property, follows_table;
    rewrite map_data_type_row, !py_get_dict.
  assert (Hexample : exists example,
             _generate_example_value (PStr t) = Ok example /\
             (spec_type_row t = None -> example = PStr "example")).
  { destruct (spec_type_row t) eqn:Erow.
    - destruct (example_is_ok t) as [example E]; exists example; split;
        [exact E | discriminate].
    - exists (PStr "example"); split;
        [apply example_of_unrecognized, Erow | reflexivity]. }
  destruct Hexample as [example [-> Hexample]].
  destruct (dict_get (PStr "max_length") d) as [m |] eqn:Em;
    [destruct (truthy m) eqn:Et |];
    destruct (spec_type_row t) as [[ty [format |]] |];
    cbn -[truthy]; rewrite ?Et; cbn; rewrite ?Em; cbn;
    eexists; (split; [reflexivity |]); cbn;
    rewrite ?Hexample by reflexivity; repeat split; reflexivity.
Qed.

(** C5, amended.  The property generated for an attribute whose
    [max_length] is a truthy value, such as an integer other than zero,
    has that value as [maxLength]; the property generated for an attribute
    without [max_length] has no [maxLength]. *)
Theorem max_length_becomes_maxLength :
  forall (attr_items : pydict) (declared : string),
    exists property,
      attribute_property (PDict attr_items) (PStr declared) = Ok property /\
      (forall v,
          dict_get (PStr "max_length") attr_items = Some v ->
          truthy v = true ->
          dict_get (PStr "maxLength") property = Some v) /\
      (dict_get (PStr "max_length") attr_items = None ->
       dict_get (PStr "maxLength") property = None).
Proof.
  intros d t.
  unfold attribute_property; rewrite map_data_type_row, !py_get_dict.
  destruct (example_is_ok t) as [example ->].
  destruct (dict_get (PStr "max_length") d) as [m |] eqn:Em.
  - destruct (spec_type_row t) as [[ty [format |]] |];
      cbn -[truthy]; destruct (truthy m) eqn:Et; cbn; rewrite ?Em; cbn;
      eexists; (split; [reflexivity |]);
      (split; [intros v Hv Tv; inversion Hv; subst v;
               try congruence; reflexivity
              | intros N; discriminate N]).
  - destruct (spec_type_row t) as [[ty [format |]] |];
      cbn; eexists; (split; [reflexivity |]);
      (split; [intros v Hv; discriminate Hv | reflexivity]).
Qed.

(** ** The schema of an entity *)

Lemma attribute_step_ok (properties properties' : pydict)
    (required required' : list pyval) (attr : pyval) :
  attribute_step (properties, required) attr = Ok (properties', required') ->
  exists property,
    attribute_property attr (field_or_none "type" attr) = Ok property /\
    properties' = dict_set (name_of attr) (PDict property) properties /\
    hashable (name_of attr) = true /\
    required' =
      if truthy (match field "required" attr with
                 | Some x => x
                 | None => PBool false
                 end)
      then required ++ [name_of attr] else required.
Proof.
  unfold attribute_step; intros H.
  unbind H as attr_name Ename.
  unbind H as attr_type Etype.
  unbind H as property Eproperty.
  unbind H as stored Estored.
  unbind H as is_required Erequired.
  apply py_getitem_ok in Ename; destruct Ename as [d [-> Ename]].
  apply py_getitem_field in Etype.
  rewrite py_get_dict in Erequired; inversion Erequired; subst is_required.
  unfold py_setitem in Estored.
  unfold name_of, field_or_none; rewrite Etype; unfold field; rewrite Ename.
  destruct (hashable attr_name); [| discriminate].
  inversion Estored; inversion H; subst.
  exists property; auto.
Qed.

Lemma required_flag (attr : pyval) :
  required_is_boolean attr ->
  truthy (match field "required" attr with
          | Some x => x
          | None => PBool false
          end) = marked_required attr.
Proof.
  unfold required_is_boolean, marked_required.
  destruct (field "required" attr) as [[| [] | | | | |] |];
    simpl; intros H; (reflexivity || contradiction).
Qed.

Lemma attribute_loop_required (attrs : list pyval) :
  forall (properties properties' : pydict) (required required' : list pyval),
    for_each attribute_step attrs (properties, required)
    = Ok (properties', required') ->
    Forall required_is_boolean attrs ->
    required' = required ++ map name_of (filter marked_required attrs).
Proof.
  induction attrs as [| attr attrs IH];
    intros properties properties' required required' H Hbool.
  - simpl in H; inversion H; subst; simpl; symmetry; apply app_nil_r.
  - cbn [for_each] in H; unbind H as state Estep.
    destruct state as [properties1 required1].
    apply attribute_step_ok in Estep.
    destruct Estep as [property [_ [_ [_ Hrequired]]]].
    apply Forall_cons_iff in Hbool; destruct Hbool as [Ha Hl].
    rewrite (required_flag _ Ha) in Hrequired.
    rewrite (IH _ _ _ _ H Hl); cbn [filter]; subst required1.
    destruct (marked_required attr); cbn [map]; [| reflexivity].
    rewrite <- app_assoc; reflexivity.
Qed.

Lemma generate_entity_schema_ok (entity schema : pyval) :
  _generate_entity_schema entity = Ok schema ->
  exists (properties : pydict) (required : list pyval),
    for_each attribute_step (attributes_of entity) ([], [])
    = Ok (properties, required) /\
    let items := [ "type" :-> PStr "object";
                   "properties" :-> PDict properties;
                   "required" :-> PList required ] in
    schema = PDict match field "taxonomy_classification" entity with
                   | Some classification =>
                       items ++ ["x-taxonomy" :-> classification]
                   | None => items
                   end.
Proof.
  unfold _generate_entity_schema; intros H.
  unbind H as attributes Eattributes.
  unbind H as attrs Eattrs.
  unbind H as state Eloop.
  unbind H as has_taxonomy Ehas.
  apply py_get_ok in Eattributes; destruct Eattributes as [d [-> Eattributes]].
  apply py_iter_iterated in Eattrs.
  assert (Hattrs : attributes_of (PDict d) = attrs).
  { unfold attributes_of, field; rewrite <- Eattrs, Eattributes.
    destruct (dict_get (PStr "attributes") d); reflexivity. }
  destruct state as [properties required].
  exists properties, required; rewrite Hattrs; split; [exact Eloop |].
  cbn [py_contains] in Ehas; inversion Ehas; subst has_taxonomy; clear Ehas.
  cbn [field py_getitem fst snd] in *.
  destruct (dict_get (PStr "taxonomy_classification") d) as [c |].
  - cbn in H; inversion H; reflexivity.
  - inversion H; reflexivity.
Qed.

(** C3.  The [required] list of the schema of an entity holds the names
    of the attributes marked [required: true], and only those, in the
    order of declaration: it is the list of attributes filtered by the
    mark. *)
Theorem required_lists_marked_attributes :
  forall (entity schema : pyval),
    _generate_entity_schema entity = Ok schema ->
    Forall required_is_boolean (attributes_of entity) ->
    lookup_path ["required"] schema =
    Ok (PList (map name_of (filter marked_required (attributes_of entity)))).
Proof.
  intros entity schema H Hbool.
  apply generate_entity_schema_ok in H.
  destruct H as [properties [required [Hloop Hschema]]].
  apply attribute_loop_required in Hloop; [| exact Hbool].
  cbn [app] in Hloop; subst required.
  cbv zeta in Hschema; subst schema.
  destruct (field "taxonomy_classification" entity); reflexivity.
Qed.

(** ** The compliance set *)

Lemma existsb_py_eq_in (a : string) (s : pyset) :
  existsb (py_eq (PStr a)) s = true <-> In (PStr a) s.
Proof.
  rewrite existsb_exists; split.
  - intros [y [Hy E]]; apply py_eq_str_inv in E; subst; exact Hy.
  - intros H; exists (PStr a); split; [exact H | apply py_eq_str_refl].
Qed.

Lemma set_add_string_in (a : string) (s : pyset) (x : pyval) :
  In x (set_add (PStr a) s) <-> In x s \/ x = PStr a.
Proof.
  unfold set_add; destruct (existsb (py_eq (PStr a)) s) eqn:E.
  - apply existsb_py_eq_in in E; split; [auto | intros [H | ->]; assumption].
  - rewrite in_app_iff; simpl; split.
    + intros [H | [H | []]]; [left; exact H | right; symmetry; exact H].
    + intros [H | H]; [left; exact H | right; left; symmetry; exact H].
Qed.

Lemma set_add_string_nodup (a : string) (s : pyset) :
  NoDup s -> NoDup (set_add (PStr a) s).
Proof.
  intros H; unfold set_add; destruct (existsb (py_eq (PStr a)) s) eqn:E;
    [exact H |].
  assert (N : ~ In (PStr a) s).
  { intros Hin; apply existsb_py_eq_in in Hin; congruence. }
  apply NoDup_app; [exact H | repeat constructor; intros [] |].
  intros y Hy [<- | []]; exact (N Hy).
Qed.

Lemma add_all_strings (l : list pyval) :
  forall s,
    Forall is_string l ->
    NoDup s ->
    NoDup (add_all l s) /\ forall x, In x (add_all l s) <-> In x s \/ In x l.
Proof.
  induction l as [| y l IH]; intros s Hl Hs; simpl.
  { split; [exact Hs |].
    intros x; split; [intros H; left; exact H | intros [H | []]; exact H]. }
  apply Forall_cons_iff in Hl; destruct Hl as [Hy Hl].
  destruct y; try contradiction.
  destruct (IH (set_add (PStr s0) s) Hl (set_add_string_nodup _ _ Hs))
    as [Hnodup Hin].
  split; [exact Hnodup |].
  intros x; rewrite Hin, set_add_string_in; split.
  - intros [[H | H] | H];
      [left; exact H | right; left; symmetry; exact H | right; right; exact H].
  - intros [H | [H | H]];
      [left; left; exact H | left; right; symmetry; exact H | right; exact H].
Qed.

Lemma set_update_strings (s : pyset) (l : list pyval) :
  Forall is_string l -> set_update s (PList l) = Ok (add_all l s).
Proof.
  unfold set_update; cbn [py_iter bind].
  revert s; induction l as [| y l IH]; intros s Hl; [reflexivity |].
  apply Forall_cons_iff in Hl; destruct Hl as [Hy Hl].
  destruct y; try contradiction.
  cbn [for_each hashable bind]; apply IH, Hl.
Qed.

Lemma compliance_step_ok (compliance : pyset) (entity : pyval)
    (compliance' : pyset) :
  compliance_step compliance entity = Ok compliance' ->
  (exists n, declared_name entity = Some n) ->
  compliance_is_strings entity ->
  compliance' = add_all (compliance_of entity) compliance.
Proof.
  intros H [n Hn] Hstrings.
  unfold declared_name in Hn.
  destruct entity as [| | | | | | d]; try discriminate Hn.
  unfold compliance_step in H; cbn [py_contains bind py_getitem] in H.
  unfold compliance_is_strings, compliance_of in *; cbn [field] in *.
  destruct (dict_get (PStr "taxonomy_classification") d) as [c |].
  - cbn [bind] in H; unbind H as listed Elisted.
    apply py_get_ok in Elisted; destruct Elisted as [cd [-> ->]].
    cbn [field] in *.
    destruct (dict_get (PStr "compliance") cd) as [[| | | | | l |] |];
      try contradiction.
    + rewrite (set_update_strings _ _ Hstrings) in H; inversion H; reflexivity.
    + cbn in H; inversion H; reflexivity.
  - inversion H; reflexivity.
Qed.

Lemma compliance_loop_ok (items : list pyval) :
  forall (compliance compliance' : pyset) (names : list string),
    for_each compliance_step items compliance = Ok compliance' ->
    named items names ->
    Forall compliance_is_strings items ->
    compliance' = add_all (flat_map compliance_of items) compliance.
Proof.
  induction items as [| entity items IH];
    intros compliance compliance' names H Hnamed Hstrings.
  - inversion H; reflexivity.
  - cbn [for_each] in H; unbind H as compliance1 Estep.
    apply Forall_cons_iff in Hstrings; destruct Hstrings as [Hentity Hrest].
    destruct names as [| n names]; [discriminate Hnamed |].
    unfold named in Hnamed; cbn [map] in Hnamed.
    injection Hnamed as Hn Hnamed.
    apply compliance_step_ok in Estep; [| eauto | exact Hentity].
    rewrite (IH _ _ names H Hnamed Hrest); subst compliance1.
    unfold add_all; cbn [flat_map]; rewrite fold_left_app; reflexivity.
Qed.

(** ** The taxonomy extension *)

Lemma generate_depends_on_truthiness (set_iteration : pyset -> list pyval)
    (g1 g2 : OpenAPIGenerator) (model : pyval) :
  truthy (taxonomy g1) = truthy (taxonomy g2) ->
  generate_from_loaded str_lower str_title set_iteration g1 model
  = generate_from_loaded str_lower str_title set_iteration g2 model.
Proof. unfold generate_from_loaded; intros ->; reflexivity. Qed.

Lemma extract_compliance_ok (set_iteration : pyset -> list pyval)
    (entities compliance : pyval) (names : list string) :
  _extract_compliance_requirements set_iteration entities = Ok compliance ->
  named (iterated entities) names ->
  Forall compliance_is_strings (iterated entities) ->
  compliance =
  PList (set_iteration (add_all (flat_map compliance_of (iterated entities)) [])).
Proof.
  unfold _extract_compliance_requirements; intros H Hnamed Hstrings.
  unbind H as items Eitems.
  unbind H as collected Eloop.
  apply py_iter_iterated in Eitems; subst items.
  rewrite (compliance_loop_ok _ _ _ _ Eloop Hnamed Hstrings) in H.
  inversion H; reflexivity.
Qed.

(** The extension of a document generated from a loaded model. *)
Lemma extension_of_loaded_model (set_iteration : pyset -> list pyval)
    (self : OpenAPIGenerator) (model doc : pyval) :
  iterates_members set_iteration ->
  generate_from_loaded str_lower str_title set_iteration self model = Ok doc ->
  Forall compliance_is_strings (entities_of model) ->
  py_contains "x-taxonomy" doc = Ok (truthy (taxonomy self)) /\
  (truthy (taxonomy self) = true ->
   exists compliance,
     lookup_path ["x-taxonomy"] doc =
       Ok (PDict [ "domain" :-> field_or_none "domain" (model_info_of model);
                   "version" :-> field_or_none "version" (model_info_of model);
                   "compliance" :-> PList compliance ]) /\
     NoDup compliance /\
     forall x,
       In x compliance <->
       exists entity,
         In entity (entities_of model) /\ In x (compliance_of entity)).
Proof.
  intros Hperm H Hstrings.
  apply generate_from_loaded_ok in H.
  destruct H as (model_items & domain & version & description & filled
                 & -> & _ & _ & _ & Hloop & Hdoc).
  destruct filled as [schemas paths].
  destruct (entity_loop_keys _ [] [] schemas paths [] [] eq_refl eq_refl Hloop)
    as [names [Hnamed _]].
  cbv zeta in Hdoc.
  destruct (truthy (taxonomy self)).
  - destruct Hdoc as [compliance [Hextract ->]].
    split; [reflexivity |]; intros _.
    assert (Hentities :
              iterated (match field "entities" (PDict model_items) with
                        | Some v => v
                        | None => PList []
                        end) = entities_of (PDict model_items)).
    { unfold entities_of; destruct (field "entities" (PDict model_items));
        reflexivity. }
    apply (extract_compliance_ok _ _ _ names) in Hextract;
      rewrite ?Hentities in *; try assumption.
    subst compliance.
    set (listed := flat_map compliance_of (entities_of (PDict model_items))).
    assert (Hlisted : Forall is_string listed).
    { unfold listed; apply Forall_flat_map.
      revert Hstrings; apply Forall_impl; intros entity.
      unfold compliance_is_strings, compliance_of.
      destruct (field "taxonomy_classification" entity) as [c |];
        [| constructor].
      destruct (field "compliance" c) as [[| | | | | l |] |];
        try contradiction; auto. }
    destruct (add_all_strings listed [] Hlisted (NoDup_nil _)) as [Hnodup Hin].
    exists (set_iteration (add_all listed [])).
    split; [reflexivity |].
    split; [apply (Permutation_NoDup (Permutation_sym (Hperm _))), Hnodup |].
    intros x; split.
    + intros Hx; apply (Permutation_in _ (Hperm _)) in Hx.
      apply Hin in Hx; destruct Hx as [[] | Hx].
      unfold listed in Hx; apply in_flat_map in Hx; exact Hx.
    + intros Hx; apply (Permutation_in _ (Permutation_sym (Hperm _))).
      apply Hin; right; unfold listed; apply in_flat_map; exact Hx.
  - subst doc; split; [reflexivity | discriminate].
Qed.

(** C7.  A generated document has the top-level key [x-taxonomy] if and
    only if the taxonomy of the generator is truthy, a mapping that is not
    empty.  The extension then holds the domain and the version of the
    model ([None] for one the model does not give) and a compliance list
    without duplicates whose members are those of the compliance lists of
    the entities. *)
Theorem taxonomy_extension_of_model :
  forall (json_load : string -> option pyval)
         (set_iteration : pyset -> list pyval) (self : OpenAPIGenerator)
         (fs : filesystem) (model_file : string) (model doc : pyval),
    iterates_members set_iteration ->
    open_json json_load locate fs model_file = Ok model ->
    generate_from_model json_load str_lower str_title set_iteration locate
      self fs model_file = Ok doc ->
    Forall compliance_is_strings (entities_of model) ->
    py_contains "x-taxonomy" doc = Ok (truthy (taxonomy self)) /\
    (truthy (taxonomy self) = true ->
     exists compliance,
       lookup_path ["x-taxonomy"] doc =
         Ok (PDict [ "domain" :-> field_or_none "domain" (model_info_of model);
                     "version" :-> field_or_none "version" (model_info_of model);
                     "compliance" :-> PList compliance ]) /\
       NoDup compliance /\
       forall x,
         In x compliance <->
         exists entity,
           In entity (entities_of model) /\ In x (compliance_of entity)).
Proof.
  intros json_load set_iteration self fs model_file model doc Hperm Emodel H
         Hstrings.
  unfold generate_from_model in H; rewrite Emodel in H; cbn [bind] in H.
  exact (extension_of_loaded_model _ _ _ _ Hperm H Hstrings).
Qed.

(** C10.  Two generators whose taxonomy mappings are both empty or both
    not empty make the same document of every model file. *)
Theorem taxonomy_entries_do_not_matter :
  forall (json_load : string -> option pyval)
         (set_iteration : pyset -> list pyval)
         (fs : filesystem) (model_file : string) (t1 t2 : pydict),
    (t1 = [] <-> t2 = []) ->
    generate_from_model json_load str_lower str_title set_iteration locate
      {| taxonomy := PDict t1 |}
      fs model_file
    = generate_from_model json_load str_lower str_title set_iteration locate
      {| taxonomy := PDict t2 |}
        fs model_file.
Proof.
  intros json_load set_iteration fs model_file t1 t2 H.
  unfold generate_from_model.
  destruct (open_json json_load locate fs model_file) as [model | e]; [| reflexivity].
  cbn [bind]; apply generate_depends_on_truthiness; cbn [taxonomy truthy].
  destruct t1 as [| x1 t1], t2 as [| x2 t2]; try reflexivity.
  - destruct H as [H _]; discriminate (H eq_refl).
  - destruct H as [_ H]; discriminate (H eq_refl).
Qed.

Lemma init_without_taxonomy (json_load : string -> option pyval)
    (fs : filesystem) (taxonomy_file : option string) :
  taxonomy_absent locate fs taxonomy_file = true ->
  __init__ json_load locate fs taxonomy_file = Ok {| taxonomy := PDict [] |}.
Proof.
  unfold taxonomy_absent, __init__; destruct taxonomy_file as [path |];
    [| reflexivity].
  destruct (path =? ""); [reflexivity |].
  destruct (path_exists fs (locate path)); [discriminate | reflexivity].
Qed.

Lemma extension_key (set_iteration : pyset -> list pyval)
    (self : OpenAPIGenerator) (model doc : pyval) :
  generate_from_loaded str_lower str_title set_iteration self model = Ok doc ->
  py_contains "x-taxonomy" doc = Ok (truthy (taxonomy self)) /\
  (truthy (taxonomy self) = true ->
   exists compliance,
     lookup_path ["x-taxonomy"] doc =
     Ok (PDict [ "domain" :-> field_or_none "domain" (model_info_of model);
                 "version" :-> field_or_none "version" (model_info_of model);
                 "compliance" :-> compliance ])).
Proof.
  intros H; apply generate_from_loaded_ok in H.
  destruct H as (model_items & domain & version & description & filled
                 & -> & _ & _ & _ & _ & Hdoc).
  cbv zeta in Hdoc; destruct (truthy (taxonomy self)).
  - destruct Hdoc as [compliance [_ ->]].
    split; [reflexivity | intros _; exists compliance; reflexivity].
  - subst doc; split; [reflexivity | discriminate].
Qed.

(** C8, amended.  A document generated without a taxonomy (no option, or
    nothing at the path) has no [x-taxonomy] key at its root.  A document
    generated with a loaded taxonomy that is truthy has the key, and every
    other truthy taxonomy gives the same document: the entries of the
    taxonomy are not copied into it.  The value of the key holds the
    domain and the version of the model and the compliance list of the
    entities: where their compliance lists hold strings, it has no
    duplicates and its members are those of the lists of the entities. *)
Theorem taxonomy_switches_the_extension :
  forall (json_load : string -> option pyval)
         (set_iteration : pyset -> list pyval)
         (fs : filesystem) (taxonomy_file : option string)
         (self : OpenAPIGenerator) (model_file : string) (model doc : pyval),
    __init__ json_load locate fs taxonomy_file = Ok self ->
    open_json json_load locate fs model_file = Ok model ->
    generate_from_model json_load str_lower str_title set_iteration locate
      self fs model_file = Ok doc ->
    (taxonomy_absent locate fs taxonomy_file = true ->
     py_contains "x-taxonomy" doc = Ok false) /\
    (truthy (taxonomy self) = true ->
     py_contains "x-taxonomy" doc = Ok true /\
     (forall other,
         truthy (taxonomy other) = true ->
         generate_from_model json_load str_lower str_title set_iteration locate
           other fs model_file = Ok doc) /\
     (iterates_members set_iteration ->
      Forall compliance_is_strings (entities_of model) ->
      exists compliance,
        lookup_path ["x-taxonomy"] doc =
          Ok (PDict [ "domain" :-> field_or_none "domain" (model_info_of model);
                      "version" :-> field_or_none "version" (model_info_of model);
                      "compliance" :-> PList compliance ]) /\
        NoDup compliance /\
        forall x,
          In x compliance <->
          exists entity,
            In entity (entities_of model) /\ In x (compliance_of entity))).
Proof.
  intros json_load set_iteration fs taxonomy_file self model_file model doc
         Hinit Emodel H.
  unfold generate_from_model in *; rewrite Emodel in *; cbn [bind] in *.
  destruct (extension_key _ _ _ _ H) as [Hkey _].
  split.
  - intros Habsent.
    rewrite (init_without_taxonomy json_load _ _ Habsent) in Hinit.
    inversion Hinit; subst self; exact Hkey.
  - intros Htruthy; rewrite Htruthy in Hkey.
    split; [exact Hkey |].
    split.
    + intros other Hother.
      rewrite <- H; apply generate_depends_on_truthiness; congruence.
    + intros Hperm Hstrings.
      destruct (extension_of_loaded_model _ _ _ _ Hperm H Hstrings)
        as [_ Hextension].
      exact (Hextension Htruthy).
Qed.

(** ** Two runs on the same input *)

Lemma agree_bind {A B : Type} (P : B -> B -> Prop) (r : result A)
    (k1 k2 : A -> result B) :
  (forall a, agree P (k1 a) (k2 a)) -> agree P (bind r k1) (bind r k2).
Proof. destruct r as [a | e]; simpl; intros H; [apply H | reflexivity]. Qed.

Lemma agree_ok {A : Type} (P : A -> A -> Prop) (r1 r2 : result A) :
  agree P r1 r2 ->
  (exists a1 a2, r1 = Ok a1 /\ r2 = Ok a2 /\ P a1 a2) \/
  (exists e, r1 = Raise e /\ r2 = Raise e).
Proof.
  destruct r1 as [a1 | e1], r2 as [a2 | e2]; simpl; intros H;
    try contradiction; [left | right; subst]; eauto.
Qed.

Section TwoRuns.

Variable json_load : string -> option pyval.
Variables first_order second_order : pyset -> list pyval.
Hypothesis first_iterates : iterates_members first_order.
Hypothesis second_iterates : iterates_members second_order.

Lemma generate_from_loaded_agree (self : OpenAPIGenerator) (model : pyval) :
  agree (fun d1 d2 =>
           same_up_to_compliance_order d1 d2 /\
           (truthy (taxonomy self) = false -> d1 = d2))
        (generate_from_loaded str_lower str_title first_order self model)
        (generate_from_loaded str_lower str_title second_order self model).
Proof using Type*.
  unfold generate_from_loaded.
  apply agree_bind; intros model_info.
  apply agree_bind; intros entities.
  apply agree_bind; intros domain0.
  apply agree_bind; intros domain.
  apply agree_bind; intros version.
  apply agree_bind; intros description.
  apply agree_bind; intros items.
  apply agree_bind; intros filled.
  destruct (truthy (taxonomy self)).
  - apply agree_bind; intros domain1.
    apply agree_bind; intros version1.
    unfold _extract_compliance_requirements.
    destruct (py_iter entities) as [listed | e]; [| reflexivity].
    cbn [bind].
    destruct (for_each compliance_step listed []) as [compliance | e];
      [| reflexivity].
    cbn [bind agree]; split; [| discriminate].
    right.
    exists (openapi_spec_of (str_title (replace "_" " " domain) ++ " API")
              version description filled),
      domain1, version1, (first_order compliance), (second_order compliance).
    split; [reflexivity |]. split; [reflexivity |].
    apply (Permutation_trans (first_iterates compliance)).
    apply Permutation_sym, second_iterates.
  - cbn [agree]; split; [left |]; reflexivity.
Qed.

Lemma generate_from_model_agree (self : OpenAPIGenerator) (fs : filesystem)
    (model_file : string) :
  agree (fun d1 d2 =>
           same_up_to_compliance_order d1 d2 /\
           (truthy (taxonomy self) = false -> d1 = d2))
        (generate_from_model json_load str_lower str_title first_order locate
          self fs model_file)
        (generate_from_model json_load str_lower str_title second_order locate
          self fs model_file).
Proof using Type*.
  unfold generate_from_model; apply agree_bind; intros model.
  apply generate_from_loaded_agree.
Qed.

End TwoRuns.

(** C6, amended.  Two runs on the same files end alike: both raise the
    same exception, or both make a document, and the two documents differ
    at most in the order of the compliance list of the extension, which
    follows the iteration order of a set.  The outcomes of [main] are the
    same, or the taxonomy is truthy and the two documents differ at most
    in that order; the exit status is then the same if the writer
    finishes for both documents or for neither.  When the taxonomy is
    falsy, absent or an empty mapping, the documents and the whole outcome
    of [main], the written file with them, are the same. *)
Theorem generation_is_deterministic_up_to_set_order :
  forall (json_load : string -> option pyval) (yaml_dump : pyval -> dumped)
         (prepare : filesystem -> string -> filesystem * bool)
         (console_accepts : string -> bool) (help_text : string)
         (first_order second_order : pyset -> list pyval),
    iterates_members first_order ->
    iterates_members second_order ->
    forall (self : OpenAPIGenerator) (fs : filesystem) (model_file : string)
           (args : arguments),
      let first :=
        main json_load yaml_dump str_lower str_title first_order locate
          prepare console_accepts help_text args fs in
      let second :=
        main json_load yaml_dump str_lower str_title second_order locate
          prepare console_accepts help_text args fs in
      agree (fun d1 d2 =>
               same_up_to_compliance_order d1 d2 /\
               (truthy (taxonomy self) = false -> d1 = d2))
            (generate_from_model json_load str_lower str_title first_order
               locate self fs model_file)
            (generate_from_model json_load str_lower str_title second_order
               locate self fs model_file) /\
      (first = second \/
       exists generator model d1 d2,
         __init__ json_load locate fs (arg_taxonomy args) = Ok generator /\
         truthy (taxonomy generator) = true /\
         arg_model args = Some model /\
         generate_from_model json_load str_lower str_title first_order
           locate generator fs model = Ok d1 /\
         generate_from_model json_load str_lower str_title second_order
           locate generator fs model = Ok d2 /\
         same_up_to_compliance_order d1 d2 /\
         (finishes_alike yaml_dump d1 d2 ->
          exit_code first = exit_code second)) /\
      ((forall generator,
           __init__ json_load locate fs (arg_taxonomy args) = Ok generator ->
           truthy (taxonomy generator) = false) ->
       first = second).
Proof.
  intros json_load yaml_dump prepare console_accepts help_text
         first_order second_order H1 H2 self fs model_file args first second.
  split; [apply generate_from_model_agree; assumption |].
  subst first second; unfold main.
  destruct (arg_help args); [split; [left |]; reflexivity |].
  destruct (arg_model args) as [model |]; [| split; [left |]; reflexivity].
  destruct (arg_output args) as [output |]; [| split; [left |]; reflexivity].
  destruct (__init__ json_load locate fs (arg_taxonomy args))
    as [generator | e]; [| split; [left |]; reflexivity].
  cbn [bind].
  destruct (agree_ok _ _ _
              (generate_from_model_agree json_load _ _ H1 H2 generator fs model))
    as [(d1 & d2 & E1 & E2 & Hsame & Hfalsy) | (e & -> & ->)];
    [| split; [left |]; reflexivity].
  rewrite E1, E2.
  destruct (truthy (taxonomy generator)) eqn:Etruthy.
  - split.
    + right; exists generator, model, d1, d2.
      repeat (split; [reflexivity || assumption |]).
      unfold finishes_alike.
      destruct (prepare fs output) as [made opened].
      destruct opened; [| reflexivity].
      destruct (yaml_dump d1), (yaml_dump d2); try contradiction; intros _;
        [destruct (console_accepts (confirmation output)) |]; reflexivity.
    + intros Hfalse; specialize (Hfalse generator eq_refl).
      rewrite Etruthy in Hfalse; discriminate Hfalse.
  - rewrite (Hfalsy eq_refl); split; [left |]; reflexivity.
Qed.

(** ** The command line *)


(** ** The properties in the schema *)

Lemma py_eq_str_inv_l (b : string) (k : pyval) :
  py_eq k (PStr b) = true -> k = PStr b.
Proof.
  destruct k; simpl; try discriminate;
    try (destruct f; discriminate).
  intros H; apply String.eqb_eq in H; subst; reflexivity.
Qed.

Lemma dict_get_str_set_other (b : string) (k v : pyval) (d : pydict) :
  k <> PStr b -> dict_get (PStr b) (dict_set k v d) = dict_get (PStr b) d.
Proof.
  intros Hk.
  assert (F : py_eq (PStr b) k = false).
  { destruct (py_eq (PStr b) k) eqn:E; [| reflexivity].
    apply py_eq_str_inv in E; congruence. }
  induction d as [| [k' x] d IH]; cbn [dict_get dict_set].
  - rewrite F; reflexivity.
  - destruct (py_eq k k') eqn:E; cbn [dict_get].
    + destruct (py_eq (PStr b) k') eqn:E'; [| reflexivity].
      apply py_eq_str_inv in E'; subst k'.
      apply py_eq_str_inv_l in E; congruence.
    + rewrite IH; reflexivity.
Qed.

Lemma attribute_loop_last_wins (attrs : list pyval) :
  forall (properties properties' : pydict) (required required' : list pyval)
         (n : string),
    for_each attribute_step attrs (properties, required)
    = Ok (properties', required') ->
    match last_named n attrs with
    | Some attr =>
        exists property,
          attribute_property attr (field_or_none "type" attr) = Ok property /\
          dict_get (PStr n) properties' = Some (PDict property)
    | None => dict_get (PStr n) properties' = dict_get (PStr n) properties
    end.
Proof.
  induction attrs as [| attr attrs IH];
    intros properties properties' required required' n H.
  - simpl in H; inversion H; subst; reflexivity.
  - cbn [for_each] in H; unbind H as state Estep.
    destruct state as [properties1 required1].
    apply attribute_step_ok in Estep.
    destruct Estep as [property [Hproperty [-> _]]].
    specialize (IH _ _ _ _ n H); cbn [last_named].
    destruct (last_named n attrs) as [later |]; [exact IH |].
    unfold declared_name, name_of, field_or_none in *.
    destruct (field "name" attr) as [[| | | | m | |] |];
      try (rewrite IH; apply dict_get_str_set_other; discriminate).
    destruct (String.eqb_spec m n) as [-> | N].
    + exists property; split; [exact Hproperty |].
      rewrite IH; apply dict_get_set_same.
    + rewrite IH; apply dict_get_set_other, N.
Qed.

(** The schema holds, under the name of an attribute, the property made
    from the last attribute of that name. *)
Lemma schema_holds_attribute_properties (entity schema : pyval) :
  _generate_entity_schema entity = Ok schema ->
  forall n attr,
    last_named n (attributes_of entity) = Some attr ->
    exists property,
      attribute_property attr (field_or_none "type" attr) = Ok property /\
      lookup_path ["properties"; n] schema = Ok (PDict property).
Proof.
  intros H n attr Hlast.
  apply generate_entity_schema_ok in H.
  destruct H as [properties [required [Hloop Hschema]]].
  pose proof (attribute_loop_last_wins _ _ _ _ _ n Hloop) as W.
  rewrite Hlast in W; destruct W as [property [Hproperty Hget]].
  exists property; split; [exact Hproperty |].
  cbv zeta in Hschema; subst schema.
  destruct (field "taxonomy_classification" entity);
    cbn [lookup_path py_getitem app dict_get py_eq String.eqb Ascii.eqb
         Bool.eqb bind]; rewrite Hget; reflexivity.
Qed.

(** The attributes the loop has run over are records. *)
Lemma attribute_loop_records (attrs : list pyval) :
  forall (state state' : pydict * list pyval),
    for_each attribute_step attrs state = Ok state' ->
    Forall (fun attr => exists attr_items, attr = PDict attr_items) attrs.
Proof.
  induction attrs as [| attr attrs IH]; intros state state' H;
    [constructor |].
  cbn [for_each] in H; unbind H as state1 Estep.
  constructor; [| exact (IH _ _ H)].
  unfold attribute_step in Estep; destruct state as [properties required].
  unbind Estep as attr_name Ename.
  apply py_getitem_ok in Ename; destruct Ename as [attr_items [-> _]].
  exists attr_items; reflexivity.
Qed.

(** C4.  In the schema generated for an entity, the property of an
    attribute whose declared type is in the table has the type and the
    format of its row, without a format where the row has none; the
    property of an attribute of any other declared type has type
    [string], no format and the example ["example"].  The property is the
    one made from the attribute's own type field, and the schema holds it
    under the name of the attribute (for two attributes of one name, the
    property of the last). *)
Theorem property_type_follows_table :
  forall (entity schema : pyval),
    _generate_entity_schema entity = Ok schema ->
    (forall attr declared,
        In attr (attributes_of entity) ->
        field "type" attr = Some (PStr declared) ->
        exists property,
          attribute_property attr (PStr declared) = Ok property /\
          follows_table declared property) /\
    (forall n attr declared,
        last_named n (attributes_of entity) = Some attr ->
        field "type" attr = Some (PStr declared) ->
        exists property,
          attribute_property attr (PStr declared) = Ok property /\
          lookup_path ["properties"; n] schema = Ok (PDict property) /\
          follows_table declared property).
Proof.
  intros entity schema H; split.
  - intros attr declared Hin Htype.
    apply generate_entity_schema_ok in H.
    destruct H as [properties [required [Hloop _]]].
    apply attribute_loop_records in Hloop.
    rewrite Forall_forall in Hloop.
    destruct (Hloop _ Hin) as [attr_items ->].
    apply attribute_property_follows_table.
  - intros n attr declared Hlast Htype.
    destruct (schema_holds_attribute_properties _ _ H _ _ Hlast)
      as [property [Hproperty Hheld]].
    unfold field_or_none in Hproperty; rewrite Htype in Hproperty.
    exists property; split; [exact Hproperty |]; split; [exact Hheld |].
    destruct attr as [| | | | | | attr_items]; try discriminate Htype.
    destruct (attribute_property_follows_table attr_items declared)
      as [property' [Hproperty' Hfollows]].
    rewrite Hproperty in Hproperty'; injection Hproperty' as <-.
    exact Hfollows.
Qed.

(** ** Models of the input format are generated *)

Lemma attribute_property_total (attr_items : pydict) (declared : string) :
  exists property,
    attribute_property (PDict attr_items) (PStr declared) = Ok property.
Proof.
  unfold attribute_property; rewrite map_data_type_row, !py_get_dict.
  destruct (example_is_ok declared) as [example ->].
  destruct (dict_get (PStr "max_length") attr_items) as [m |] eqn:Em;
    [destruct (truthy m) eqn:Et |];
    destruct (spec_type_row declared) as [[ty [format |]] |];
    cbn -[truthy]; rewrite ?Et; cbn; rewrite ?Em; cbn;
    eexists; reflexivity.
Qed.

Lemma attribute_step_total (attr : pyval) (schema : pydict * list pyval) :
  well_formed_attribute attr = true ->
  exists schema', attribute_step schema attr = Ok schema'.
Proof.
  unfold well_formed_attribute, field; intros H.
  destruct attr as [| | | | | | d]; try discriminate H.
  destruct (dict_get (PStr "name") d) as [[| | | | n | |] |] eqn:En;
    try discriminate H.
  destruct (dict_get (PStr "type") d) as [[| | | | t | |] |] eqn:Et;
    try discriminate H.
  destruct schema as [properties required].
  unfold attribute_step; cbn [py_getitem]; rewrite En, Et; cbn [bind].
  destruct (attribute_property_total d t) as [property ->].
  cbn [bind py_setitem hashable]; rewrite py_get_dict; cbn [bind]; eauto.
Qed.

Lemma for_each_total {A S : Type} (body : S -> A -> result S)
    (good : A -> bool) (items : list A) :
  (forall x s, good x = true -> exists s', body s x = Ok s') ->
  forallb good items = true ->
  forall s, exists s', for_each body items s = Ok s'.
Proof.
  intros Hbody; induction items as [| x items IH]; intros Hgood s;
    cbn [for_each]; [eauto |].
  cbn [forallb] in Hgood; apply andb_true_iff in Hgood.
  destruct Hgood as [Hx Hitems].
  destruct (Hbody x s Hx) as [s1 ->]; cbn [bind]; apply IH, Hitems.
Qed.

Lemma optional_list_iterates (check : pyval -> bool) (o : option pyval) :
  optional (list_of check) o = true ->
  exists l,
    py_iter (match o with Some v => v | None => PList [] end) = Ok l /\
    forallb check l = true.
Proof.
  destruct o as [[| | | | | l |] |]; simpl; intros H; try discriminate H;
    eauto.
Qed.

Lemma generate_entity_schema_total (entity : pyval) :
  well_formed_entity entity = true ->
  exists n d schema,
    entity = PDict d /\
    dict_get (PStr "name") d = Some (PStr n) /\
    _generate_entity_schema entity = Ok schema.
Proof.
  unfold well_formed_entity, field; intros H.
  destruct entity as [| | | | | | d]; try discriminate H.
  destruct (dict_get (PStr "name") d) as [[| | | | n | |] |] eqn:En;
    try discriminate H.
  apply andb_true_iff in H; destruct H as [Hattributes Hclassification].
  exists n, d.
  destruct (optional_list_iterates _ _ Hattributes) as [attrs [Eattrs Hattrs]].
  unfold _generate_entity_schema; rewrite py_get_dict; cbn [bind].
  rewrite Eattrs; cbn [bind].
  destruct (for_each_total attribute_step well_formed_attribute attrs
              (fun x s => attribute_step_total x s) Hattrs ([], []))
    as [state ->].
  cbn [bind py_contains py_getitem].
  destruct (dict_get (PStr "taxonomy_classification") d); cbn [bind];
    eexists; (split; [reflexivity |]); (split; [exact En | reflexivity]).
Qed.

Lemma entity_step_total (entity : pyval) (spec : pydict * pydict) :
  well_formed_entity entity = true ->
  exists spec', entity_step str_lower spec entity = Ok spec'.
Proof.
  intros H; destruct (generate_entity_schema_total entity H)
    as (n & d & schema & -> & En & Eschema).
  destruct spec as [schemas paths]; unfold entity_step.
  cbn [py_getitem]; rewrite En; cbn [bind as_str]; rewrite Eschema.
  cbn [bind]; eauto.
Qed.

Lemma compliance_step_total (entity : pyval) (compliance : pyset) :
  well_formed_entity entity = true ->
  exists compliance', compliance_step compliance entity = Ok compliance'.
Proof.
  unfold well_formed_entity, field; intros H.
  destruct entity as [| | | | | | d]; try discriminate H.
  destruct (dict_get (PStr "name") d) as [[| | | | n | |] |]; try discriminate H.
  apply andb_true_iff in H; destruct H as [_ H].
  unfold compliance_step; cbn [py_contains py_getitem].
  destruct (dict_get (PStr "taxonomy_classification") d) as [c |];
    cbn [bind]; [| eauto].
  destruct c as [| | | | | | cd]; try discriminate H.
  rewrite py_get_dict; cbn [bind].
  cbn [optional well_formed_classification] in H.
  destruct (dict_get (PStr "compliance") cd) as [[| | | | | l |] |];
    try discriminate H; [| cbn; eauto].
  rewrite set_update_strings; [eauto |].
  cbn [optional list_of] in H; rewrite forallb_forall in H.
  apply Forall_forall; intros x Hx; specialize (H x Hx).
  destruct x; try discriminate H; exact I.
Qed.

(** A model of the input format is generated without an exception,
    whatever the taxonomy and the iteration order. *)
Lemma generation_of_well_formed_models (set_iteration : pyset -> list pyval)
    (self : OpenAPIGenerator) (model : pyval) :
  well_formed_model model = true ->
  exists doc, generate_from_loaded str_lower str_title set_iteration
    self model = Ok doc.
Proof.
  unfold well_formed_model; intros H.
  destruct model as [| | | | | | items]; try discriminate H.
  apply andb_true_iff in H; destruct H as [Hinfo Hentities].
  destruct (optional_list_iterates _ _ Hentities) as [entities [Eiter Hwf]].
  unfold generate_from_loaded; rewrite !py_get_dict; cbn [bind].
  set (info := match dict_get (PStr "model") items with
               | Some y => y
               | None => PDict []
               end).
  assert (Hdomain : exists info_items domain,
             info = PDict info_items /\
             match dict_get (PStr "domain") info_items with
             | Some y => y
             | None => PStr "API"
             end = PStr domain).
  { subst info; destruct (dict_get (PStr "model") items) as [v |].
    - destruct v as [| | | | | | info_items]; try discriminate Hinfo.
      cbn [optional well_formed_info] in Hinfo.
      destruct (dict_get (PStr "domain") info_items) as [[| | | | d | |] |]
        eqn:Ed; try discriminate Hinfo.
      + exists info_items, d; rewrite Ed; split; reflexivity.
      + exists info_items, "API"; rewrite Ed; split; reflexivity.
    - exists [], "API"; split; reflexivity. }
  destruct Hdomain as (info_items & domain & -> & Edomain).
  rewrite !py_get_dict, Edomain; cbn [bind as_str].
  rewrite Eiter; cbn [bind].
  destruct (for_each_total (entity_step str_lower) well_formed_entity entities
              (fun x s => entity_step_total x s) Hwf ([], []))
    as [filled ->].
  cbn [bind].
  destruct (truthy (taxonomy self)); [| eauto].
  unfold _extract_compliance_requirements; rewrite Eiter; cbn [bind].
  destruct (for_each_total compliance_step well_formed_entity entities
              (fun x s => compliance_step_total x s) Hwf [])
    as [compliance ->].
  cbn [bind]; eauto.
Qed.

(** * Further properties of the generator *)

(** ** Attributes and schemas *)

Lemma declared_name_is_name (record : pyval) (n : string) :
  declared_name record = Some n -> name_of record = PStr n.
Proof.
  unfold declared_name, name_of, field_or_none.
  destruct (field "name" record) as [[| | | | m | |] |]; intros H;
    inversion H; reflexivity.
Qed.

Lemma attribute_loop_keys (attrs : list pyval) :
  forall (properties properties' : pydict) (required required' : list pyval)
         (seen names : list string),
    dict_keys properties = map PStr seen ->
    for_each attribute_step attrs (properties, required)
    = Ok (properties', required') ->
    named attrs names ->
    dict_keys properties' = map PStr (fold_left add_new names seen).
Proof.
  induction attrs as [| attr attrs IH];
    intros properties properties' required required' seen names Hkeys H Hnamed.
  - destruct names; [| discriminate Hnamed].
    simpl in H; inversion H; subst; exact Hkeys.
  - destruct names as [| n names]; [discriminate Hnamed |].
    unfold named in Hnamed; cbn [map] in Hnamed; injection Hnamed as Hn Hnamed.
    cbn [for_each] in H; unbind H as state Estep.
    destruct state as [properties1 required1].
    apply attribute_step_ok in Estep.
    destruct Estep as [property [_ [-> _]]].
    rewrite (declared_name_is_name _ _ Hn) in H.
    cbn [fold_left].
    apply (IH _ _ _ _ (add_new seen n) names) with (2 := H); [| exact Hnamed].
    apply schemas_keys_set, Hkeys.
Qed.

(** X1.  The properties of a schema are keyed by the attribute names, each
    once, in the order of first declaration, and the property under a name
    is the one made from the last attribute of that name. *)
Theorem schema_properties_follow_declaration :
  forall (entity schema : pyval) (names : list string),
    _generate_entity_schema entity = Ok schema ->
    named (attributes_of entity) names ->
    exists properties,
      lookup_path ["properties"] schema = Ok (PDict properties) /\
      dict_keys properties = map PStr (distinct names) /\
      forall n attr,
        last_named n (attributes_of entity) = Some attr ->
        exists property,
          attribute_property attr (field_or_none "type" attr) = Ok property /\
          dict_get (PStr n) properties = Some (PDict property).
Proof.
  intros entity schema names H Hnamed.
  apply generate_entity_schema_ok in H.
  destruct H as [properties [required [Hloop Hschema]]].
  exists properties; split.
  - cbv zeta in Hschema; subst schema.
    destruct (field "taxonomy_classification" entity); reflexivity.
  - split.
    + apply (attribute_loop_keys _ [] properties [] required [] names eq_refl
               Hloop Hnamed).
    + intros n attr Hlast.
      pose proof (attribute_loop_last_wins _ _ _ _ _ n Hloop) as W.
      rewrite Hlast in W; exact W.
Qed.

(** X2.  A schema is an object with the keys [type], [properties] and
    [required], in this order; it has an [x-taxonomy] key, last, exactly
    when the entity has a [taxonomy_classification], and the value is that
    classification unchanged. *)
Theorem schema_carries_the_classification :
  forall (entity schema : pyval),
    _generate_entity_schema entity = Ok schema ->
    exists items,
      schema = PDict items /\
      dict_keys items =
        [PStr "type"; PStr "properties"; PStr "required"] ++
        match field "taxonomy_classification" entity with
        | Some _ => [PStr "x-taxonomy"]
        | None => []
        end /\
      dict_get (PStr "type") items = Some (PStr "object") /\
      dict_get (PStr "x-taxonomy") items = field "taxonomy_classification" entity.
Proof.
  intros entity schema H.
  apply generate_entity_schema_ok in H.
  destruct H as [properties [required [_ Hschema]]].
  cbv zeta in Hschema; subst schema.
  destruct (field "taxonomy_classification" entity);
    eexists; repeat split; reflexivity.
Qed.

Lemma attribute_loop_truthy_required (attrs : list pyval) :
  forall (properties properties' : pydict) (required required' : list pyval),
    for_each attribute_step attrs (properties, required)
    = Ok (properties', required') ->
    required' = required ++ map name_of (filter counts_as_required attrs).
Proof.
  induction attrs as [| attr attrs IH];
    intros properties properties' required required' H.
  - simpl in H; inversion H; subst; simpl; symmetry; apply app_nil_r.
  - cbn [for_each] in H; unbind H as state Estep.
    destruct state as [properties1 required1].
    apply attribute_step_ok in Estep.
    destruct Estep as [property [_ [_ [_ Hrequired]]]].
    rewrite (IH _ _ _ _ H); cbn [filter]; subst required1.
    unfold counts_as_required at 2.
    destruct (truthy _); cbn [map]; [| reflexivity].
    rewrite <- app_assoc; reflexivity.
Qed.

(** X3.  The [required] list of a schema holds the name of every
    attribute whose [required] field is truthy, whatever its type, once per
    such attribute and in the order of declaration: a non-empty string or
    a number other than zero marks the attribute, [None] and zero do
    not. *)
Theorem required_lists_truthy_attributes :
  forall (entity schema : pyval),
    _generate_entity_schema entity = Ok schema ->
    lookup_path ["required"] schema =
    Ok (PList (map name_of (filter counts_as_required (attributes_of entity)))).
Proof.
  intros entity schema H.
  apply generate_entity_schema_ok in H.
  destruct H as [properties [required [Hloop Hschema]]].
  apply attribute_loop_truthy_required in Hloop.
  cbn [app] in Hloop; subst required.
  cbv zeta in Hschema; subst schema.
  destruct (field "taxonomy_classification" entity); reflexivity.
Qed.

(** X4.  The property of an attribute has a [maxLength] exactly when the
    attribute has a truthy [max_length], and then with that value: zero,
    [None], [False] and the empty string give no [maxLength], as a missing
    field does. *)
Theorem maxLength_only_for_truthy_max_length :
  forall (attr_items : pydict) (declared : string),
    exists property,
      attribute_property (PDict attr_items) (PStr declared) = Ok property /\
      dict_get (PStr "maxLength") property =
      match dict_get (PStr "max_length") attr_items with
      | Some v => if truthy v then Some v else None
      | None => None
      end.
Proof.
  intros d t.
  unfold attribute_property; rewrite map_data_type_row, !py_get_dict.
  destruct (example_is_ok t) as [example ->].
  destruct (dict_get (PStr "max_length") d) as [m |] eqn:Em;
    [destruct (truthy m) eqn:Et |];
    destruct (spec_type_row t) as [[ty [format |]] |];
    cbn -[truthy]; rewrite ?Et; cbn; rewrite ?Em; cbn;
    eexists; (split; [reflexivity |]); reflexivity.
Qed.

(** X5.  The keys of the property of an attribute are [type],
    [description] and [example], then [format] for a declared type whose
    row has one, then [maxLength] for a truthy [max_length].  The
    description is that of the attribute, of any type, and the empty
    string without one; the example is the entry of the example table for
    the declared type, and ["example"] for a type without an entry, [enum]
    among them. *)
Theorem property_fields_in_order :
  forall (attr_items : pydict) (declared : string),
    exists property,
      attribute_property (PDict attr_items) (PStr declared) = Ok property /\
      dict_keys property =
        [PStr "type"; PStr "description"; PStr "example"] ++
        match spec_type_row declared with
        | Some (_, Some _) => [PStr "format"]
        | _ => []
        end ++
        (if truthy (match dict_get (PStr "max_length") attr_items with
                    | Some v => v
                    | None => PNone
                    end)
         then [PStr "maxLength"] else []) /\
      dict_get (PStr "description") property =
        Some match dict_get (PStr "description") attr_items with
             | Some text => text
             | None => PStr ""
             end /\
      dict_get (PStr "example") property =
        Some match dict_get (PStr declared) examples with
             | Some example => example
             | None => PStr "example"
             end /\
      dict_get (PStr "enum") examples = None.
Proof.
  intros d t.
  unfold attribute_property; rewrite map_data_type_row, !py_get_dict.
  unfold _generate_example_value, table_get; cbn [hashable bind].
  destruct (dict_get (PStr "max_length") d) as [m |] eqn:Em;
    [destruct (truthy m) eqn:Et |];
    destruct (spec_type_row t) as [[ty [format |]] |];
    cbn -[truthy examples]; rewrite ?Et; cbn -[examples]; rewrite ?Em;
    cbn -[examples];
    eexists; (split; [reflexivity |]); repeat split; reflexivity.
Qed.

(** ** Exceptions of the loops *)

Lemma for_each_raises {A S : Type} (body : S -> A -> result S)
    (good : A -> bool) (prefix : list A) (bad : A) (rest : list A) (e : exn) :
  (forall x s, good x = true -> exists s', body s x = Ok s') ->
  forallb good prefix = true ->
  (forall s, body s bad = Raise e) ->
  forall s, for_each body (prefix ++ bad :: rest) s = Raise e.
Proof.
  intros Hbody Hgood Hbad.
  induction prefix as [| x prefix IH]; intros s; cbn [app for_each].
  - rewrite Hbad; reflexivity.
  - cbn [forallb] in Hgood; apply andb_true_iff in Hgood.
    destruct Hgood as [Hx Hprefix].
    destruct (Hbody x s Hx) as [s1 ->]; cbn [bind]; apply IH, Hprefix.
Qed.

Lemma attribute_step_fault (attr : pyval) (e : exn) :
  attribute_fault attr e ->
  forall schema, attribute_step schema attr = Raise e.
Proof.
  intros H [properties required]; unfold attribute_step.
  destruct H as [v Hv | d Hn | d n Hn Ht | d n t Hn Ht Hhash | d n t Hn Ht Hhash].
  - destruct v; try reflexivity; exfalso; exact (Hv _ eq_refl).
  - cbn [py_getitem]; rewrite Hn; reflexivity.
  - cbn [py_getitem]; rewrite Hn, Ht; reflexivity.
  - cbn [py_getitem]; rewrite Hn, Ht; cbn [bind].
    unfold attribute_property, _map_data_type, table_get; rewrite Hhash.
    reflexivity.
  - cbn [py_getitem]; rewrite Hn, Ht; cbn [bind].
    destruct (attribute_property_total d t) as [property ->].
    cbn [bind]; unfold py_setitem; rewrite Hhash; reflexivity.
Qed.

(** X6.  The schema of an entity is not made when one of its attributes
    is not a record, lacks a name or a type, or has a list or a dictionary
    as its type or name: the exception of the first such attribute, after
    attributes of the input format, is the exception of
    [_generate_entity_schema]: [KeyError] for a missing field, [TypeError]
    for the others. *)
Theorem faulty_attribute_stops_the_schema :
  forall (entity_items : pydict) (good : list pyval) (bad : pyval)
         (rest : list pyval) (e : exn),
    dict_get (PStr "attributes") entity_items
    = Some (PList (good ++ bad :: rest)) ->
    forallb well_formed_attribute good = true ->
    attribute_fault bad e ->
    _generate_entity_schema (PDict entity_items) = Raise e.
Proof.
  intros d good bad rest e Hattributes Hgood Hbad.
  unfold _generate_entity_schema; rewrite py_get_dict, Hattributes.
  cbn [bind py_iter].
  rewrite (for_each_raises attribute_step well_formed_attribute good bad rest e
             (fun x s => attribute_step_total x s) Hgood
             (attribute_step_fault bad e Hbad)).
  reflexivity.
Qed.

Lemma entity_step_fault (entity : pyval) (e : exn) :
  entity_fault entity e ->
  forall spec, entity_step str_lower spec entity = Raise e.
Proof.
  intros H [schemas paths]; unfold entity_step.
  destruct H as [v Hv | d Hn | d n Hn Hstr].
  - destruct v; try reflexivity; exfalso; exact (Hv _ eq_refl).
  - cbn [py_getitem]; rewrite Hn; reflexivity.
  - cbn [py_getitem]; rewrite Hn; cbn [bind].
    destruct n; try reflexivity; discriminate Hstr.
Qed.

Lemma info_is_read (items : pydict) :
  optional well_formed_info (dict_get (PStr "model") items) = true ->
  exists info_items domain,
    match dict_get (PStr "model") items with
    | Some y => y
    | None => PDict []
    end = PDict info_items /\
    match dict_get (PStr "domain") info_items with
    | Some y => y
    | None => PStr "API"
    end = PStr domain.
Proof.
  intros Hinfo; destruct (dict_get (PStr "model") items) as [v |].
  - destruct v as [| | | | | | info_items]; try discriminate Hinfo.
    cbn [optional well_formed_info] in Hinfo.
    destruct (dict_get (PStr "domain") info_items) as [[| | | | d | |] |]
      eqn:Ed; try discriminate Hinfo.
    + exists info_items, d; rewrite Ed; split; reflexivity.
    + exists info_items, "API"; rewrite Ed; split; reflexivity.
  - exists [], "API"; split; reflexivity.
Qed.

(** X7.  No document is made of a model with an entity that is not a
    record, lacks a name, or has a name that is not a string: after
    entities of the input format, the first such entity ends
    [generate_from_model] with [TypeError], [KeyError] or
    [AttributeError], whatever follows it. *)
Theorem faulty_entity_stops_the_generation :
  forall (set_iteration : pyset -> list pyval) (self : OpenAPIGenerator)
         (model_items : pydict) (good : list pyval) (bad : pyval)
         (rest : list pyval) (e : exn),
    optional well_formed_info (dict_get (PStr "model") model_items) = true ->
    dict_get (PStr "entities") model_items
    = Some (PList (good ++ bad :: rest)) ->
    forallb well_formed_entity good = true ->
    entity_fault bad e ->
    generate_from_loaded str_lower str_title set_iteration
      self (PDict model_items) = Raise e.
Proof.
  intros set_iteration self items good bad rest e Hinfo Hentities Hgood Hbad.
  destruct (info_is_read items Hinfo) as (info_items & domain & Einfo & Edomain).
  unfold generate_from_loaded; rewrite !py_get_dict; cbn [bind].
  rewrite Einfo, !py_get_dict, Edomain, Hentities; cbn [bind as_str py_iter].
  rewrite (for_each_raises (entity_step str_lower) well_formed_entity good bad
    rest e
             (fun x s => entity_step_total x s) Hgood
             (entity_step_fault bad e Hbad)).
  reflexivity.
Qed.

(** X8.  A model file whose value has the wrong shape gives no document:
    [AttributeError] when the value is not a record, when its [model]
    field is not a record, or when the domain is not a string, whatever
    the entities are; [TypeError] when the [entities] field is [None] or a
    number. *)
Theorem misshapen_model_raises :
  forall (set_iteration : pyset -> list pyval) (self : OpenAPIGenerator),
    (forall model,
        (forall items, model <> PDict items) ->
        generate_from_loaded str_lower str_title set_iteration
          self model = Raise AttributeError) /\
    (forall items info,
        dict_get (PStr "model") items = Some info ->
        (forall info_items, info <> PDict info_items) ->
        generate_from_loaded str_lower str_title set_iteration
          self (PDict items)
        = Raise AttributeError) /\
    (forall items domain,
        field "domain" (model_info_of (PDict items)) = Some domain ->
        is_str domain = false ->
        generate_from_loaded str_lower str_title set_iteration
          self (PDict items)
        = Raise AttributeError) /\
    (forall items entities,
        optional well_formed_info (dict_get (PStr "model") items) = true ->
        dict_get (PStr "entities") items = Some entities ->
        not_iterable entities = true ->
        generate_from_loaded str_lower str_title set_iteration
          self (PDict items) = Raise TypeError).
Proof.
  intros set_iteration self; repeat split.
  - intros model Hmodel; destruct model; try reflexivity.
    exfalso; exact (Hmodel _ eq_refl).
  - intros items info Hinfo Hshape.
    unfold generate_from_loaded; rewrite !py_get_dict, Hinfo; cbn [bind].
    destruct info; try reflexivity; exfalso; exact (Hshape _ eq_refl).
  - intros items domain Hdomain Hstr.
    unfold model_info_of, field in Hdomain.
    unfold generate_from_loaded; rewrite !py_get_dict; cbn [bind].
    destruct (dict_get (PStr "model") items) as [info |];
      [| discriminate Hdomain].
    destruct info as [| | | | | | info_items]; try discriminate Hdomain.
    rewrite py_get_dict, Hdomain; cbn [bind].
    destruct domain; try reflexivity; discriminate Hstr.
  - intros items entities Hinfo Hentities Hscalar.
    destruct (info_is_read items Hinfo)
      as (info_items & domain & Einfo & Edomain).
    unfold generate_from_loaded; rewrite !py_get_dict; cbn [bind].
    rewrite Einfo, !py_get_dict, Edomain, Hentities; cbn [bind as_str].
    destruct entities; try discriminate Hscalar; reflexivity.
Qed.

(** ** Paths and references *)

Lemma entity_loop_path_items (items : list pyval) :
  forall (schemas paths schemas' paths' : pydict) (l : string),
    for_each (entity_step str_lower) items (schemas, paths) = Ok (schemas',
      paths') ->
    match last_lowered str_lower l items with
    | Some m =>
        dict_get (PStr (base_path_of l)) paths' = Some (collection_item m) /\
        dict_get (PStr (entity_path_of l)) paths' = Some (single_item m l)
    | None =>
        dict_get (PStr (base_path_of l)) paths'
        = dict_get (PStr (base_path_of l)) paths /\
        dict_get (PStr (entity_path_of l)) paths'
        = dict_get (PStr (entity_path_of l)) paths
    end.
Proof.
  induction items as [| entity items IH]; intros schemas paths schemas' paths' l H.
  - simpl in H; inversion H; subst; split; reflexivity.
  - cbn [for_each] in H; unbind H as x E; destruct x as [schemas1 paths1].
    apply entity_step_ok in E; destruct E as [m [schema [Hm [_ [-> ->]]]]].
    specialize (IH _ _ _ _ l H); cbn [last_lowered].
    destruct (last_lowered str_lower l items) as [later |]; [exact IH |].
    destruct IH as [IHbase IHentity]; rewrite IHbase, IHentity, Hm.
    rewrite generate_entity_paths_items; unfold dict_update;
      cbn [fold_left fst snd].
    destruct (String.eqb_spec (str_lower m) l) as [<- | N].
    + split.
      * rewrite dict_get_set_other, dict_get_set_same; [reflexivity |].
        intros E; symmetry in E; exact (base_path_not_entity_path _ _ E).
      * apply dict_get_set_same.
    + split.
      * rewrite !dict_get_set_other; [reflexivity | |].
        -- intros E; apply base_path_inj in E; exact (N E).
        -- intros E; symmetry in E; exact (base_path_not_entity_path _ _ E).
      * rewrite !dict_get_set_other; [reflexivity | |].
        -- intros E; exact (base_path_not_entity_path _ _ E).
        -- intros E; apply entity_path_inj in E; exact (N E).
Qed.

Lemma last_lowered_is_named (l m : string) (items : list pyval) :
  last_lowered str_lower l items = Some m ->
  str_lower m = l /\ exists e, last_named m items = Some e.
Proof.
  induction items as [| entity items IH]; cbn [last_lowered last_named];
    [discriminate |].
  destruct (last_lowered str_lower l items) as [later |].
  - intros H; inversion H; subst later.
    destruct (IH eq_refl) as [Hl [e He]]; rewrite He; eauto.
  - destruct (declared_name entity) as [n |]; [| discriminate].
    destruct (String.eqb_spec (str_lower n) l) as [Hl | _]; [| discriminate].
    intros H; inversion H; subst n; split; [exact Hl |].
    destruct (last_named m items) as [e |]; [eauto |].
    rewrite String.eqb_refl; eauto.
Qed.

Lemma lookup_path_app (a b : list string) (v : pyval) :
  lookup_path (a ++ b) v = (x <- lookup_path a v ;; lookup_path b x).
Proof.
  revert v; induction a as [| k a IH]; intros v; cbn [app lookup_path bind];
    [reflexivity |].
  destruct (py_getitem v k) as [x | e]; cbn [bind]; [apply IH | reflexivity].
Qed.

Lemma document_parts (set_iteration : pyset -> list pyval)
    (self : OpenAPIGenerator) (model doc : pyval) :
  generate_from_loaded str_lower str_title set_iteration self model = Ok doc ->
  exists schemas paths,
    for_each (entity_step str_lower) (entities_of model) ([], []) = Ok (schemas,
      paths) /\
    lookup_path ["paths"] doc = Ok (PDict paths) /\
    lookup_path ["components"; "schemas"] doc = Ok (PDict schemas) /\
    lookup_path ["components"; "responses"] doc = Ok _generate_standard_responses.
Proof.
  intros H; apply generate_from_loaded_ok in H.
  destruct H as (model_items & domain & version & description & filled
                 & _ & _ & _ & _ & Hloop & Hdoc).
  destruct filled as [schemas paths]; exists schemas, paths.
  split; [exact Hloop |].
  cbv zeta in Hdoc; destruct (truthy (taxonomy self));
    [destruct Hdoc as [c [_ ->]] | subst doc]; repeat split; reflexivity.
Qed.

(** X9.  The two paths of a lowercased entity name hold the operations of
    the last entity with that lowercased name: the collection path its
    list and create operations, the item path its get operation.  An
    earlier entity of the same lowercased name leaves the place of the
    paths and nothing else. *)
Theorem paths_hold_the_last_entity :
  forall (set_iteration : pyset -> list pyval) (self : OpenAPIGenerator)
         (model doc : pyval) (l m : string),
    generate_from_loaded str_lower str_title set_iteration
      self model = Ok doc ->
    last_lowered str_lower l (entities_of model) = Some m ->
    str_lower m = l /\
    lookup_path ["paths"; base_path_of l] doc = Ok (collection_item m) /\
    lookup_path ["paths"; entity_path_of l] doc = Ok (single_item m l).
Proof.
  intros set_iteration self model doc l m H Hlast.
  destruct (document_parts _ _ _ _ H)
    as (schemas & paths & Hloop & Hpaths & _ & _).
  pose proof (entity_loop_path_items _ _ _ _ _ l Hloop) as W.
  rewrite Hlast in W; destruct W as [Wbase Wentity].
  split; [exact (proj1 (last_lowered_is_named _ _ _ Hlast)) |].
  split.
  - change ["paths"; base_path_of l] with (["paths"] ++ [base_path_of l]).
    rewrite lookup_path_app, Hpaths; cbn [bind lookup_path py_getitem].
    rewrite Wbase; reflexivity.
  - change ["paths"; entity_path_of l] with (["paths"] ++ [entity_path_of l]).
    rewrite lookup_path_app, Hpaths; cbn [bind lookup_path py_getitem].
    rewrite Wentity; reflexivity.
Qed.

(** X10.  The list operation of every path refers to a schema that is in
    the document: the reference of its items is
    [#/components/schemas/] followed by the name of the entity the path
    holds, and that name is a key of the schemas.  The operation ids of the
    two paths are [list], [create] and [get] followed by that name, the
    first with the plural [s]. *)
Theorem list_reference_is_generated :
  forall (set_iteration : pyset -> list pyval) (self : OpenAPIGenerator)
         (model doc : pyval) (l m : string),
    generate_from_loaded str_lower str_title set_iteration
      self model = Ok doc ->
    last_lowered str_lower l (entities_of model) = Some m ->
    lookup_path
      [ "paths"; base_path_of l; "get"; "responses"; "200"; "content";
        "application/json"; "schema"; "properties"; "data"; "items"; "$ref" ]
      doc = Ok (PStr ("#/components/schemas/" ++ m)) /\
    (exists schema, lookup_path ["components"; "schemas"; m] doc = Ok schema) /\
    lookup_path ["paths"; base_path_of l; "get"; "operationId"] doc
    = Ok (PStr ("list" ++ m ++ "s")) /\
    lookup_path ["paths"; base_path_of l; "post"; "operationId"] doc
    = Ok (PStr ("create" ++ m)) /\
    lookup_path ["paths"; entity_path_of l; "get"; "operationId"] doc
    = Ok (PStr ("get" ++ m)).
Proof.
  intros set_iteration self model doc l m H Hlast.
  destruct (document_parts _ _ _ _ H)
    as (schemas & paths & Hloop & Hpaths & Hschemas & _).
  pose proof (entity_loop_path_items _ _ _ _ _ l Hloop) as W.
  rewrite Hlast in W; destruct W as [Wbase Wentity].
  assert (Hbase : lookup_path ["paths"; base_path_of l] doc
                  = Ok (collection_item m)).
  { change ["paths"; base_path_of l] with (["paths"] ++ [base_path_of l]).
    rewrite lookup_path_app, Hpaths; cbn [bind lookup_path py_getitem].
    rewrite Wbase; reflexivity. }
  assert (Hentity : lookup_path ["paths"; entity_path_of l] doc
                    = Ok (single_item m l)).
  { change ["paths"; entity_path_of l] with (["paths"] ++ [entity_path_of l]).
    rewrite lookup_path_app, Hpaths; cbn [bind lookup_path py_getitem].
    rewrite Wentity; reflexivity. }
  assert (Hunder : forall place item rest,
             lookup_path ["paths"; place] doc = Ok item ->
             lookup_path ("paths" :: place :: rest) doc = lookup_path rest item).
  { intros place item rest Hplace.
    change ("paths" :: place :: rest) with (["paths"; place] ++ rest).
    rewrite lookup_path_app, Hplace; reflexivity. }
  split; [rewrite (Hunder _ _ _ Hbase); reflexivity |].
  split.
  { destruct (last_lowered_is_named _ _ _ Hlast) as [_ [e He]].
    pose proof (entity_loop_last_wins _ _ _ _ _ m Hloop) as V.
    rewrite He in V; destruct V as [schema [_ Hget]].
    exists schema.
    change ["components"; "schemas"; m] with (["components"; "schemas"] ++ [m]).
    rewrite lookup_path_app, Hschemas; cbn [bind lookup_path py_getitem].
    rewrite Hget; reflexivity. }
  split; [rewrite (Hunder _ _ _ Hbase); reflexivity |].
  split; [rewrite (Hunder _ _ _ Hbase); reflexivity |].
  rewrite (Hunder _ _ _ Hentity); reflexivity.
Qed.

Lemma dict_get_some_iff_key (k : string) (d : pydict) :
  (exists v, dict_get (PStr k) d = Some v) <-> In (PStr k) (dict_keys d).
Proof.
  induction d as [| [k' x] d IH]; cbn [dict_get dict_keys map fst In].
  - split; [intros [v H]; discriminate H | intros []].
  - destruct (py_eq (PStr k) k') eqn:E.
    + apply py_eq_str_inv in E; subst k'; split; [auto | eauto].
    + split.
      * intros H; right; apply IH, H.
      * intros [H | H]; [| apply IH, H].
        subst k'; rewrite py_eq_str_refl in E; discriminate E.
Qed.

Lemma named_unique (records : list pyval) (names names' : list string) :
  named records names -> named records names' -> names = names'.
Proof.
  unfold named; intros H H'; rewrite H in H'; clear H.
  revert names' H'; induction names as [| n names IH]; intros [| n' names'] H;
    try discriminate H; [reflexivity |].
  injection H as -> H; f_equal; apply IH, H.
Qed.

(** X11.  The schemas of a document are those of its entities and no
    other: a name is a key of [components.schemas] exactly when an entity
    has it.  The four standard responses refer to a schema [Error], which
    is therefore in the document only when an entity is called [Error];
    the same holds for the request and response schemas the operations
    refer to. *)
Theorem only_entities_have_schemas :
  forall (set_iteration : pyset -> list pyval) (self : OpenAPIGenerator)
         (model doc : pyval) (names : list string),
    generate_from_loaded str_lower str_title set_iteration
      self model = Ok doc ->
    named (entities_of model) names ->
    (forall k,
        (exists schema, lookup_path ["components"; "schemas"; k] doc = Ok schema)
        <-> In k names) /\
    (forall response,
        In response ["BadRequest"; "Unauthorized"; "Forbidden"; "NotFound"] ->
        lookup_path [ "components"; "responses"; response; "content";
                      "application/json"; "schema"; "$ref" ] doc
        = Ok (PStr "#/components/schemas/Error")).
Proof.
  intros set_iteration self model doc names H Hnamed.
  destruct (document_parts _ _ _ _ H)
    as (schemas & paths & Hloop & _ & Hschemas & Hresponses).
  destruct (entity_loop_keys _ [] [] schemas paths [] [] eq_refl eq_refl Hloop)
    as [names' [Hnamed' [Hkeys _]]].
  rewrite (named_unique _ _ _ Hnamed' Hnamed) in Hkeys; clear Hnamed' names'.
  fold (distinct names) in Hkeys.
  split.
  - intros k.
    change ["components"; "schemas"; k] with (["components"; "schemas"] ++ [k]).
    rewrite lookup_path_app, Hschemas; cbn [bind lookup_path py_getitem].
    rewrite <- distinct_in.
    split.
    + intros [schema Hk].
      destruct (dict_get (PStr k) schemas) as [v |] eqn:E;
        [| discriminate Hk].
      assert (Hin : In (PStr k) (dict_keys schemas))
        by (apply dict_get_some_iff_key; eauto).
      rewrite Hkeys in Hin; apply in_map_iff in Hin.
      destruct Hin as [n [En Hn]]; inversion En; subst n; exact Hn.
    + intros Hk.
      assert (Hin : In (PStr k) (dict_keys schemas))
        by (rewrite Hkeys; apply in_map, Hk).
      apply dict_get_some_iff_key in Hin; destruct Hin as [v Hv].
      exists v; rewrite Hv; reflexivity.
  - intros response Hin.
    change (lookup_path
              (["components"; "responses"] ++
               [response; "content"; "application/json"; "schema"; "$ref"]) doc
            = Ok (PStr "#/components/schemas/Error")).
    rewrite lookup_path_app, Hresponses; cbn [bind].
    cbn [In] in Hin.
    destruct Hin as [<- | [<- | [<- | [<- | []]]]]; reflexivity.
Qed.

Lemma entity_loop_paths_for (items : list pyval) :
  forall (schemas paths schemas' paths' : pydict) (names : list string),
    for_each (entity_step str_lower) items (schemas, paths) = Ok (schemas',
      paths') ->
    named items names ->
    paths' =
    fold_left (fun acc n => dict_update acc (_generate_entity_paths n (str_lower
      n)))
              names paths.
Proof.
  induction items as [| entity items IH];
    intros schemas paths schemas' paths' names H Hnamed.
  - destruct names; [| discriminate Hnamed].
    simpl in H; inversion H; reflexivity.
  - destruct names as [| n names]; [discriminate Hnamed |].
    unfold named in Hnamed; cbn [map] in Hnamed; injection Hnamed as Hn Hnamed.
    cbn [for_each] in H; unbind H as x E; destruct x as [schemas1 paths1].
    apply entity_step_ok in E; destruct E as [m [schema [Hm [_ [-> ->]]]]].
    rewrite Hn in Hm; inversion Hm; subst m.
    cbn [fold_left]; apply (IH _ _ _ _ names) with (1 := H); exact Hnamed.
Qed.

(** X12.  The paths of a document depend on the names of the entities and
    on nothing else: two models whose entities have the same names in the
    same order get the same paths, whatever their attributes,
    classifications, model records and taxonomies are. *)
Theorem paths_depend_on_names_only :
  forall (first_order second_order : pyset -> list pyval)
         (g1 g2 : OpenAPIGenerator) (m1 m2 d1 d2 : pyval),
    generate_from_loaded str_lower str_title first_order g1 m1 = Ok d1 ->
    generate_from_loaded str_lower str_title second_order g2 m2 = Ok d2 ->
    map declared_name (entities_of m1) = map declared_name (entities_of m2) ->
    lookup_path ["paths"] d1 = lookup_path ["paths"] d2.
Proof.
  intros first_order second_order g1 g2 m1 m2 d1 d2 H1 H2 Hsame.
  destruct (document_parts _ _ _ _ H1) as (s1 & p1 & Hloop1 & -> & _ & _).
  destruct (document_parts _ _ _ _ H2) as (s2 & p2 & Hloop2 & -> & _ & _).
  destruct (entity_loop_keys _ [] [] s1 p1 [] [] eq_refl eq_refl Hloop1)
    as [names [Hnamed1 _]].
  assert (Hnamed2 : named (entities_of m2) names)
    by (unfold named in *; rewrite <- Hsame; exact Hnamed1).
  rewrite (entity_loop_paths_for _ _ _ _ _ names Hloop1 Hnamed1).
  rewrite (entity_loop_paths_for _ _ _ _ _ names Hloop2 Hnamed2).
  reflexivity.
Qed.

(** ** The frame of the document *)

(** X13.  Every document has the keys [openapi], [info], [servers],
    [paths] and [components] in this order, followed by [x-taxonomy] when
    the taxonomy is truthy.  The version of the format, the server, the
    contact and the four standard responses are the same for every model;
    the version and the description of [info] are those of the model
    record, of any type, and ["1.0.0"] and the empty string without
    them. *)
Theorem document_frame :
  forall (set_iteration : pyset -> list pyval) (self : OpenAPIGenerator)
         (model doc : pyval),
    generate_from_loaded str_lower str_title set_iteration
      self model = Ok doc ->
    exists items,
      doc = PDict items /\
      dict_keys items =
        [ PStr "openapi"; PStr "info"; PStr "servers"; PStr "paths";
          PStr "components" ] ++
        (if truthy (taxonomy self) then [PStr "x-taxonomy"] else []) /\
      lookup_path ["openapi"] doc = Ok (PStr "3.0.3") /\
      lookup_path ["servers"] doc =
        Ok (PList [ PDict [ "url" :-> PStr "https://api.empathyfirstmedia.com/v1";
                            "description" :-> PStr "Production server" ] ]) /\
      lookup_path ["info"; "contact"] doc =
        Ok (PDict [ "name" :-> PStr "API Development Team";
                    "email" :-> PStr "api@empathyfirstmedia.com" ]) /\
      lookup_path ["components"; "responses"] doc
      = Ok _generate_standard_responses /\
      lookup_path ["info"; "version"] doc =
        Ok match field "version" (model_info_of model) with
           | Some version => version
           | None => PStr "1.0.0"
           end /\
      lookup_path ["info"; "description"] doc =
        Ok match field "description" (model_info_of model) with
           | Some description => description
           | None => PStr ""
           end.
Proof.
  intros set_iteration self model doc H.
  apply generate_from_loaded_ok in H.
  destruct H as (model_items & domain & version & description & filled
                 & -> & Hdomain & Hversion & Hdescription & _ & Hdoc).
  apply py_get_ok in Hdomain; destruct Hdomain as [info_items [Hinfo _]].
  rewrite Hinfo in *; rewrite py_get_dict in Hversion, Hdescription.
  inversion Hversion; inversion Hdescription; subst version description.
  cbn [field]; cbv zeta in Hdoc.
  destruct (truthy (taxonomy self));
    [destruct Hdoc as [c [_ ->]] | subst doc];
    eexists; repeat split; reflexivity.
Qed.

(** X14.  A model without entities is generated: when the [entities]
    field is missing or is an empty list, an empty string or an empty
    dictionary, the document has no path and no schema, and with a truthy
    taxonomy its compliance list is empty. *)
Theorem model_without_entities :
  forall (set_iteration : pyset -> list pyval) (self : OpenAPIGenerator)
         (model_items : pydict),
    iterates_members set_iteration ->
    optional well_formed_info (dict_get (PStr "model") model_items) = true ->
    In (dict_get (PStr "entities") model_items)
       [None; Some (PList []); Some (PStr ""); Some (PDict [])] ->
    exists doc,
      generate_from_loaded str_lower str_title set_iteration
        self (PDict model_items) = Ok doc /\
      lookup_path ["paths"] doc = Ok (PDict []) /\
      lookup_path ["components"; "schemas"] doc = Ok (PDict []) /\
      (truthy (taxonomy self) = true ->
       lookup_path ["x-taxonomy"; "compliance"] doc = Ok (PList [])).
Proof.
  intros set_iteration self items Hperm Hinfo Hentities.
  destruct (info_is_read items Hinfo) as (info_items & domain & Einfo & Edomain).
  assert (Hnil : set_iteration [] = [])
    by (apply Permutation_nil, Permutation_sym, Hperm).
  assert (Hiter :
            py_iter (match dict_get (PStr "entities") items with
                     | Some y => y
                     | None => PList []
                     end) = Ok []).
  { cbn [In] in Hentities.
    destruct Hentities as [<- | [<- | [<- | [<- | []]]]]; reflexivity. }
  unfold generate_from_loaded; rewrite !py_get_dict; cbn [bind].
  rewrite Einfo, !py_get_dict, Edomain; cbn [bind as_str].
  rewrite Hiter; cbn [bind for_each].
  destruct (truthy (taxonomy self)).
  - unfold _extract_compliance_requirements; rewrite Hiter.
    cbn [bind for_each]; rewrite Hnil.
    eexists; split; [reflexivity |]; repeat split; reflexivity.
  - eexists; split; [reflexivity |]; repeat split; try reflexivity.
    discriminate.
Qed.

Lemma underscore_to_lower (c : ascii) :
  Ascii.eqb (to_lower c) "_" = Ascii.eqb c "_".
Proof. destruct c as [[] [] [] [] [] [] [] []]; reflexivity. Qed.

Lemma underscore_to_upper (c : ascii) :
  Ascii.eqb (to_upper c) "_" = Ascii.eqb c "_".
Proof. destruct c as [[] [] [] [] [] [] [] []]; reflexivity. Qed.

Lemma title_from_keeps_underscores (s : string) :
  forall p, free_of_underscores (ascii_title_from p s) = free_of_underscores s.
Proof.
  induction s as [| c s IH]; intros p; simpl; [reflexivity |].
  rewrite IH; destruct p;
    [rewrite underscore_to_lower | rewrite underscore_to_upper]; reflexivity.
Qed.

Lemma replace_removes_underscores (s : string) :
  free_of_underscores (replace "_" " " s) = true.
Proof.
  induction s as [| c s IH]; simpl; [reflexivity |].
  rewrite IH; destruct (Ascii.eqb c "_") eqn:E; [reflexivity |].
  rewrite E; reflexivity.
Qed.

Lemma replace_length (old new : ascii) (s : string) :
  String.length (replace old new s) = String.length s.
Proof. induction s as [| c s IH]; simpl; [| rewrite IH]; reflexivity. Qed.

(** X15.  For a domain of ASCII characters, and with the title case of
    such strings, the title of a document is a text followed by [" API"],
    and the text is the domain of the model, or ["API"] without one,
    changed in case and underscores only: it has the length of the domain,
    no underscore, no lowercase letter at the start of a word and no
    uppercase letter inside one, and lowercased it is the lowercased
    domain with spaces for underscores. *)
Theorem title_is_the_domain_in_title_case :
  forall (set_iteration : pyset -> list pyval) (self : OpenAPIGenerator)
         (model doc : pyval),
    titles_ascii str_title ->
    generate_from_loaded str_lower str_title set_iteration
      self model = Ok doc ->
    let domain := match domain_of model with Some d => d | None => "API" end in
    is_ascii domain = true ->
    exists shown,
      lookup_path ["info"; "title"] doc = Ok (PStr (shown ++ " API")) /\
      String.length shown = String.length domain /\
      free_of_underscores shown = true /\
      titlecased_from false shown = true /\
      ascii_lower shown = ascii_lower (replace "_" " " domain).
Proof.
  intros set_iteration self model doc Htitles H domain Hascii.
  apply generate_from_loaded_ok in H.
  destruct H as (model_items & shown_domain & version & description & filled
                 & -> & Hdomain & _ & _ & _ & Hdoc).
  assert (Hsame : shown_domain = domain).
  { subst domain; unfold domain_of.
    apply py_get_ok in Hdomain; destruct Hdomain as [info_items [-> Hdomain]].
    cbn [field]; destruct (dict_get (PStr "domain") info_items) as [d |].
    - subst d; reflexivity.
    - inversion Hdomain; reflexivity. }
  subst shown_domain.
  exists (ascii_title (replace "_" " " domain)).
  split.
  { rewrite <- (Htitles _ (replace_is_ascii _ Hascii)).
    cbv zeta in Hdoc; destruct (truthy (taxonomy self));
      [destruct Hdoc as [c [_ ->]] | subst doc]; reflexivity. }
  unfold ascii_title.
  split; [rewrite title_from_length; apply replace_length |].
  split; [rewrite title_from_keeps_underscores;
          apply replace_removes_underscores |].
  split; [apply title_from_titlecased | apply lower_title_from].
Qed.

(** ** Runs of the command *)

Section Runs.

Variable json_load : string -> option pyval.
Variable yaml_dump : pyval -> dumped.
Variable set_iteration : pyset -> list pyval.
Variable prepare : filesystem -> string -> filesystem * bool.
Variable console_accepts : string -> bool.
Variable help_text : string.

Local Abbreviation run args fs :=
  (main json_load yaml_dump str_lower str_title set_iteration locate prepare
     console_accepts help_text args fs).

(** X17.  A taxonomy option that names nothing, an empty path or a path
    with nothing at its place, is the same as no option: the taxonomy is
    the empty dictionary and the run is that of the command line without
    the option.  A taxonomy file that is there is read before the model:
    when it cannot be opened or is not JSON the constructor raises, and
    the run ends with a status other than zero and writes nothing,
    whatever the model file holds. *)
Theorem taxonomy_file_is_read_when_present :
  forall (args : arguments) (fs : filesystem) (path : string),
    arg_help args = false ->
    arg_taxonomy args = Some path ->
    (path = "" \/ fs (locate path) = None ->
     __init__ json_load locate fs (Some path) = Ok {| taxonomy := PDict [] |} /\
     run args fs = run {| arg_help := false;
                          arg_model := arg_model args;
                          arg_taxonomy := None;
                          arg_output := arg_output args |} fs) /\
    (path <> "" ->
     fs (locate path) = Some Unreadable \/
     (exists text,
         fs (locate path) = Some (Text text) /\ json_load text = None) ->
     (exists e, __init__ json_load locate fs (Some path) = Raise e) /\
     exit_code (run args fs) <> 0%Z /\
     files (run args fs) = fs /\
     stdout (run args fs) = []).
Proof.
  intros args fs path Hhelp Htaxonomy; split.
  - intros Hnothing.
    assert (Hinit : __init__ json_load locate fs (Some path)
                    = Ok {| taxonomy := PDict [] |}).
    { apply init_without_taxonomy; unfold taxonomy_absent, path_exists.
      destruct Hnothing as [-> | ->]; [reflexivity | apply orb_true_r]. }
    split; [exact Hinit |].
    unfold main; cbn [arg_help arg_model arg_taxonomy arg_output].
    rewrite Hhelp, Htaxonomy, Hinit; reflexivity.
  - intros Hpath Hbroken.
    apply String.eqb_neq in Hpath.
    assert (Hinit : exists e,
               __init__ json_load locate fs (Some path) = Raise e).
    { unfold __init__, path_exists, open_json; rewrite Hpath.
      destruct Hbroken as [-> | [text [-> ->]]]; eexists; reflexivity. }
    split; [exact Hinit |].
    unfold main; rewrite Hhelp, Htaxonomy.
    destruct (arg_model args) as [model |];
      [| repeat split; cbn; discriminate].
    destruct (arg_output args) as [output |];
      [| repeat split; cbn; discriminate].
    destruct Hinit as [e ->]; cbn; repeat split; discriminate.
Qed.

(** X19.  A run on a model file of the input format succeeds, if the
    machine lets it: when the file is there and is JSON of the format and
    the generator is made, the document is generated; when then the
    output file can be opened, the writer finishes and the console takes
    the line, the run ends with status zero, the output file holds the
    dumped document, every other place is as the making of the
    directories left it, and the confirmation names the output file. *)
Theorem main_succeeds_on_a_well_formed_model :
  forall (args : arguments) (fs : filesystem) (model output text : string)
         (value : pyval) (generator : OpenAPIGenerator),
    arg_help args = false ->
    arg_model args = Some model ->
    arg_output args = Some output ->
    __init__ json_load locate fs (arg_taxonomy args) = Ok generator ->
    fs (locate model) = Some (Text text) ->
    json_load text = Some value ->
    well_formed_model value = true ->
    exists doc,
      generate_from_loaded str_lower str_title set_iteration generator value
      = Ok doc /\
      forall (made : filesystem) (written : string),
        prepare fs output = (made, true) ->
        yaml_dump doc = Dumped written ->
        console_accepts (confirmation output) = true ->
        exit_code (run args fs) = 0%Z /\
        files (run args fs) (locate output) = Some (Text written) /\
        (forall place,
            place <> locate output -> files (run args fs) place = made place) /\
        stdout (run args fs) = [confirmation output].
Proof.
  intros args fs model output text value generator
         Hhelp Hmodel Houtput Hinit Hfile Hjson Hwf.
  destruct (generation_of_well_formed_models set_iteration generator value Hwf)
    as [doc Hdoc].
  exists doc; split; [exact Hdoc |].
  intros made written Hprepare Hdump Hconsole.
  unfold main; rewrite Hhelp, Hmodel, Houtput, Hinit; cbn [bind].
  unfold generate_from_model, open_json; rewrite Hfile, Hjson; cbn [bind].
  rewrite Hdoc, Hprepare, Hdump; cbv zeta; rewrite Hconsole;
    cbn [exit_code files stdout].
  unfold write_file; rewrite String.eqb_refl.
  repeat split.
  intros place Hplace; apply String.eqb_neq in Hplace; rewrite Hplace;
    reflexivity.
Qed.

End Runs.

End Properties.

(** * The properties on sample models

    The samples have names and domains of ASCII characters; for these
    [str.lower] and [str.title] are [ascii_lower] and [ascii_title]. *)

Lemma schemas_and_paths_of_distinct_names_witness :
  exists doc schemas paths,
    generate_from_model Sample.load ascii_lower ascii_title
      Sample.insertion_order Sample.here Sample.without_taxonomy Sample.disk
      "models/clinic.model.json" = Ok doc /\
    lookup_path ["components"; "schemas"] doc = Ok (PDict schemas) /\
    lookup_path ["paths"] doc = Ok (PDict paths) /\
    dict_keys schemas = [PStr "Customer"; PStr "Patient"] /\
    dict_keys paths = [ PStr "/customers"; PStr "/customers/{customerId}";
                        PStr "/patients"; PStr "/patients/{patientId}" ] /\
    List.length schemas = 2 /\
    List.length paths = 4.
Proof.
  destruct (schemas_and_paths_of_distinct_names ascii_lower ascii_title
              Sample.here Sample.load Sample.insertion_order
              Sample.without_taxonomy Sample.disk "models/clinic.model.json"
              _ eq_refl)
    as (model & names & schemas & paths & Emodel & Hnamed & Hschemas & Hpaths
        & Hs & Hp & _ & _ & _ & Hcount).
  injection Emodel as <-.
  assert (Hnames : names = ["Customer"; "Patient"]).
  { vm_compute in Hnamed.
    destruct names as [| a [| b [| c names]]]; try discriminate.
    injection Hnamed as <- <-; reflexivity. }
  subst names.
  eexists; exists schemas, paths.
  split; [reflexivity |].
  split; [exact Hschemas |].
  split; [exact Hpaths |].
  split; [exact Hs |].
  split; [exact Hp |].
  apply Hcount.
  repeat constructor; cbn; intuition discriminate.
Defined.

(** C1 as stated fails: the entities [User] and [user] have different
    names and one pair of paths, so a model of two entities has two
    paths. *)
Lemma case_clash_shares_paths :
  exists model doc paths,
    open_json Sample.load Sample.here
      Sample.disk "models/clash.model.json" = Ok model /\
    generate_from_model Sample.load ascii_lower ascii_title
      Sample.insertion_order Sample.here
      Sample.without_taxonomy Sample.disk "models/clash.model.json" = Ok doc /\
    lookup_path ["paths"] doc = Ok (PDict paths) /\
    map declared_name (entities_of model) = [Some "User"; Some "user"] /\
    dict_keys paths = [PStr "/users"; PStr "/users/{userId}"] /\
    List.length paths <> 2 * List.length (entities_of model).
Proof.
  eexists; eexists; eexists; split; [reflexivity |].
  split; [reflexivity |].
  split; [reflexivity |].
  split; [reflexivity |].
  split; [reflexivity | vm_compute; discriminate].
Qed.

Lemma title_of_domain_witness :
  exists doc,
    generate_from_model Sample.load ascii_lower ascii_title
      Sample.insertion_order Sample.here Sample.without_taxonomy Sample.disk
      "models/user.model.json" = Ok doc /\
    lookup_path ["info"; "title"] doc = Ok (PStr "User Account API").
Proof.
  eexists; split; [reflexivity |].
  destruct (title_of_domain ascii_lower ascii_title Sample.here Sample.load
              Sample.insertion_order Sample.without_taxonomy Sample.disk
              "models/user.model.json" _ eq_refl)
    as (model & Emodel & _ & _ & Hascii).
  injection Emodel as <-.
  destruct (Hascii (fun s _ => eq_refl)) as (_ & Haccount & _).
  exact (Haccount eq_refl).
Defined.

(** C2 as stated fails: without a domain the title is [Api API], the
    suffix is not put in title case. *)
Lemma default_title_is_Api_API :
  exists model doc,
    open_json Sample.load Sample.here Sample.disk "models/anonymous.model.json"
    = Ok model /\
    generate_from_model Sample.load ascii_lower ascii_title
      Sample.insertion_order Sample.here Sample.without_taxonomy Sample.disk
      "models/anonymous.model.json" = Ok doc /\
    field "domain" (model_info_of model) = None /\
    lookup_path ["info"; "title"] doc = Ok (PStr "Api API") /\
    lookup_path ["info"; "title"] doc <> Ok (PStr "Api Api").
Proof.
  eexists; eexists; split; [reflexivity |].
  split; [reflexivity |].
  split; [reflexivity |].
  split; [reflexivity | vm_compute; discriminate].
Qed.

Lemma max_length_becomes_maxLength_witness :
  exists property,
    attribute_property (PDict Sample.nickname_items) (PStr "string")
    = Ok property /\
    dict_get (PStr "maxLength") property = Some (PInt 40).
Proof.
  destruct (max_length_becomes_maxLength Sample.nickname_items "string")
    as [property [H [Hsome _]]].
  exists property; split; [exact H |].
  apply Hsome; reflexivity.
Defined.

(** C5 as stated fails: an attribute with [max_length: 0] carries the
    field and its property has no [maxLength]. *)
Lemma zero_max_length_is_dropped :
  exists property,
    attribute_property (PDict Sample.code_items) (PStr "string") = Ok property /\
    dict_get (PStr "max_length") Sample.code_items = Some (PInt 0) /\
    dict_get (PStr "maxLength") property = None.
Proof. eexists; repeat split; reflexivity. Qed.

Lemma required_lists_marked_attributes_witness :
  exists schema,
    _generate_entity_schema Sample.user = Ok schema /\
    lookup_path ["required"] schema = Ok (PList [PStr "id"; PStr "email"]).
Proof.
  eexists; split; [reflexivity |].
  apply (required_lists_marked_attributes Sample.user); [reflexivity |].
  repeat constructor.
Defined.

Lemma taxonomy_extension_of_model_witness :
  exists doc,
    generate_from_model Sample.load ascii_lower ascii_title Sample.reverse_order
      Sample.here Sample.with_taxonomy
      Sample.disk "models/clinic.model.json" = Ok doc /\
    py_contains "x-taxonomy" doc = Ok true /\
    exists compliance,
      lookup_path ["x-taxonomy"] doc =
        Ok (PDict [ "domain" :-> PStr "clinic";
                    "version" :-> PStr "1.2.0";
                    "compliance" :-> PList compliance ]) /\
      NoDup compliance /\
      forall x,
        In x compliance <->
        exists entity,
          In entity [Sample.customer; Sample.patient] /\
          In x (compliance_of entity).
Proof.
  eexists; split; [reflexivity |].
  destruct (taxonomy_extension_of_model ascii_lower ascii_title Sample.here
    Sample.load Sample.reverse_order
              Sample.with_taxonomy Sample.disk "models/clinic.model.json"
              Sample.clinic _
              (fun s => Permutation_sym (Permutation_rev s)) eq_refl eq_refl)
    as [Hkey Hextension].
  - repeat constructor.
  - split; [exact Hkey | exact (Hextension eq_refl)].
Defined.

Lemma taxonomy_entries_do_not_matter_witness :
  generate_from_model Sample.load ascii_lower ascii_title Sample.insertion_order
    Sample.here
    {| taxonomy := PDict Sample.taxonomy_mapping |}
    Sample.disk "models/clinic.model.json"
  = generate_from_model Sample.load ascii_lower ascii_title
    Sample.insertion_order Sample.here
      {| taxonomy := PDict Sample.other_taxonomy_mapping |}
      Sample.disk "models/clinic.model.json".
Proof.
  apply taxonomy_entries_do_not_matter.
  split; intros H; discriminate H.
Defined.

Lemma taxonomy_switches_the_extension_witness :
  exists self doc,
    __init__ Sample.load Sample.here Sample.disk (Some "taxonomy.json")
    = Ok self /\
    generate_from_model Sample.load ascii_lower ascii_title
      Sample.reverse_order Sample.here self Sample.disk
      "models/clinic.model.json" = Ok doc /\
    py_contains "x-taxonomy" doc = Ok true /\
    generate_from_model Sample.load ascii_lower ascii_title
      Sample.reverse_order Sample.here
      {| taxonomy := PDict Sample.other_taxonomy_mapping |} Sample.disk
      "models/clinic.model.json" = Ok doc /\
    exists compliance,
      lookup_path ["x-taxonomy"] doc =
        Ok (PDict [ "domain" :-> PStr "clinic";
                    "version" :-> PStr "1.2.0";
                    "compliance" :-> PList compliance ]) /\
      NoDup compliance /\
      forall x,
        In x compliance <->
        exists entity,
          In entity [Sample.customer; Sample.patient] /\
          In x (compliance_of entity).
Proof.
  eexists; eexists; split; [reflexivity |].
  split; [reflexivity |].
  destruct (taxonomy_switches_the_extension ascii_lower ascii_title
              Sample.here Sample.load Sample.reverse_order Sample.disk
              (Some "taxonomy.json") _ "models/clinic.model.json"
              Sample.clinic _ eq_refl eq_refl eq_refl)
    as [_ Hloaded].
  destruct (Hloaded eq_refl) as (Hkey & Hother & Hextension).
  split; [exact Hkey |].
  split; [exact (Hother {| taxonomy := PDict Sample.other_taxonomy_mapping |} eq_refl) |].
  apply Hextension.
  - exact (fun s => Permutation_sym (Permutation_rev s)).
  - repeat constructor.
Defined.

(** C8 as stated fails: the taxonomy loaded from the file is in the
    generator, and neither its key nor its value is anywhere in the
    document. *)
Lemma taxonomy_mapping_is_not_in_the_document :
  exists self doc,
    __init__ Sample.load Sample.here
      Sample.disk (Some "taxonomy.json") = Ok self /\
    taxonomy self = PDict ["classification" :-> PStr "restricted"] /\
    generate_from_model Sample.load ascii_lower ascii_title
      Sample.insertion_order Sample.here self Sample.disk
      "models/user.model.json" = Ok doc /\
    lookup_path ["x-taxonomy"] doc =
      Ok (PDict [ "domain" :-> PStr "user_account";
                  "version" :-> PStr "2.0.0";
                  "compliance" :-> PList [] ]) /\
    mentions "classification" doc = false /\
    mentions "restricted" doc = false.
Proof.
  eexists; eexists; split; [reflexivity |].
  split; [reflexivity |].
  split; [reflexivity |].
  split; [reflexivity |].
  split; vm_compute; reflexivity.
Qed.

Lemma generation_is_deterministic_up_to_set_order_witness :
  exists generator,
    __init__ More.load Sample.here More.disk_with_more_files
      (Some "empty.json") = Ok generator /\
    taxonomy generator = PDict [] /\
    main More.load Sample.dump ascii_lower ascii_title Sample.insertion_order
      Sample.here Sample.opened Sample.utf8_console Sample.help
      (More.with_taxonomy_option "models/clinic.model.json" "empty.json"
         "schemas/clinic.yaml")
      More.disk_with_more_files
    = main More.load Sample.dump ascii_lower ascii_title Sample.reverse_order
        Sample.here Sample.opened Sample.utf8_console Sample.help
        (More.with_taxonomy_option "models/clinic.model.json" "empty.json"
           "schemas/clinic.yaml")
        More.disk_with_more_files.
Proof.
  eexists; split; [reflexivity |].
  split; [reflexivity |].
  apply (generation_is_deterministic_up_to_set_order ascii_lower ascii_title
           Sample.here More.load Sample.dump Sample.opened Sample.utf8_console
           Sample.help Sample.insertion_order Sample.reverse_order
           (fun s => Permutation_refl s)
           (fun s => Permutation_sym (Permutation_rev s))
           Sample.without_taxonomy More.disk_with_more_files
           "models/clinic.model.json").
  intros generator Hinit; injection Hinit as <-; reflexivity.
Defined.

(** C6 as stated fails: with a taxonomy loaded, two iteration orders of
    the compliance set give two documents from the same files. *)
Lemma compliance_order_differs :
  iterates_members Sample.insertion_order /\
  iterates_members Sample.reverse_order /\
  exists d1 d2,
    generate_from_model Sample.load ascii_lower ascii_title
      Sample.insertion_order Sample.here
      Sample.with_taxonomy Sample.disk "models/clinic.model.json" = Ok d1 /\
    generate_from_model Sample.load ascii_lower ascii_title Sample.reverse_order
      Sample.here
      Sample.with_taxonomy Sample.disk "models/clinic.model.json" = Ok d2 /\
    lookup_path ["x-taxonomy"; "compliance"] d1
    = Ok (PList [PStr "GDPR"; PStr "HIPAA"]) /\
    lookup_path ["x-taxonomy"; "compliance"] d2
    = Ok (PList [PStr "HIPAA"; PStr "GDPR"]) /\
    d1 <> d2.
Proof.
  split; [intros s; apply Permutation_refl |].
  split; [intros s; apply Permutation_sym, Permutation_rev |].
  eexists; eexists; split; [reflexivity |].
  split; [reflexivity |].
  split; [reflexivity |].
  split; [reflexivity |].
  intros E; apply (f_equal (lookup_path ["x-taxonomy"; "compliance"])) in E.
  vm_compute in E; discriminate E.
Qed.



Lemma property_type_follows_table_witness :
  exists schema age bio,
    _generate_entity_schema Sample.profile = Ok schema /\
    lookup_path ["properties"; "age"] schema = Ok (PDict age) /\
    follows_table "integer" age /\
    lookup_path ["properties"; "bio"] schema = Ok (PDict bio) /\
    follows_table "text" bio.
Proof.
  destruct (property_type_follows_table Sample.profile _ eq_refl)
    as [_ Hheld].
  destruct (Hheld "age" _ "integer" eq_refl eq_refl)
    as (age & _ & Hage & Hinteger).
  destruct (Hheld "bio" _ "text" eq_refl eq_refl)
    as (bio & _ & Hbio & Htext).
  eexists; exists age, bio.
  split; [reflexivity |].
  split; [exact Hage |].
  split; [exact Hinteger |].
  split; [exact Hbio | exact Htext].
Defined.

(** ** The example of the specification *)

Example user_account_document :
  exists doc paths,
    generate_from_model Sample.load ascii_lower ascii_title
      Sample.insertion_order Sample.here
      Sample.without_taxonomy Sample.disk "models/user.model.json" = Ok doc /\
    lookup_path ["info"; "title"] doc = Ok (PStr "User Account API") /\
    lookup_path ["info"; "version"] doc = Ok (PStr "2.0.0") /\
    lookup_path ["components"; "schemas"; "User"; "required"] doc
    = Ok (PList [PStr "id"; PStr "email"]) /\
    lookup_path ["components"; "schemas"; "User"; "properties"; "id"] doc
    = Ok (PDict [ "type" :-> PStr "string";
                  "description" :-> PStr "";
                  "example" :-> PStr "123e4567-e89b-12d3-a456-426614174000";
                  "format" :-> PStr "uuid" ]) /\
    lookup_path ["paths"] doc = Ok (PDict paths) /\
    dict_keys paths = [PStr "/users"; PStr "/users/{userId}"] /\
    lookup_path ["paths"; "/users"; "post"; "operationId"] doc
    = Ok (PStr "createUser") /\
    py_contains "x-taxonomy" doc = Ok false.
Proof. eexists; eexists; repeat split; reflexivity. Qed.

Example profile_schema :
  exists schema,
    _generate_entity_schema Sample.profile = Ok schema /\
    lookup_path ["required"] schema = Ok (PList []) /\
    lookup_path ["properties"; "nickname"; "maxLength"] schema = Ok (PInt 40) /\
    lookup_path ["properties"; "bio"; "example"] schema = Ok (PStr "example") /\
    lookup_path ["properties"; "age"; "type"] schema = Ok (PStr "integer") /\
    lookup_path ["properties"; "code"; "maxLength"] schema = Raise KeyError.
Proof. eexists; repeat split; reflexivity. Qed.

Example samples_are_well_formed :
  well_formed_model Sample.user_account = true /\
  well_formed_model Sample.clinic = true /\
  well_formed_model Sample.case_clash = true /\
  well_formed_model Sample.anonymous = true /\
  well_formed_entity Sample.profile = true.
Proof. repeat split; reflexivity. Qed.

Example title_of_words :
  ascii_title "hello wORLD 2nd-try" = "Hello World 2Nd-Try".
Proof. reflexivity. Qed.

Example runs_of_main :
  let run_with dump console args disk :=
    main More.load dump ascii_lower ascii_title Sample.insertion_order
      Sample.here Sample.opened console Sample.help args disk in
  let run model :=
    run_with Sample.dump Sample.utf8_console
      (Sample.command_line model "schemas/api.yaml") Sample.disk in
  exit_code (run "models/user.model.json") = 0%Z /\
  files (run "models/user.model.json") "schemas/api.yaml"
  = Some (Text "yaml") /\
  exit_code (run "models/missing.json") = 1%Z /\
  files (run "models/missing.json") "schemas/api.yaml" = None /\
  exit_code (run "models/broken.json") = 1%Z /\
  exit_code (run "models") = 1%Z /\
  exit_code
    (run_with Sample.dump Sample.utf8_console
       {| arg_help := false; arg_model := None; arg_taxonomy := None;
          arg_output := Some "schemas/api.yaml" |}
       Sample.disk) = 2%Z /\
  run_with Sample.dump Sample.utf8_console
    {| arg_help := true; arg_model := None; arg_taxonomy := None;
       arg_output := None |}
    Sample.disk
  = {| exit_code := 0; files := Sample.disk; stdout := [Sample.help] |} /\
  (let refused :=
     run_with Sample.dump More.latin_console
       (Sample.command_line "models/user.model.json" "schemas/api.yaml")
       Sample.disk in
   exit_code refused = 1%Z /\
   files refused "schemas/api.yaml" = Some (Text "yaml") /\
   stdout refused = []).
Proof. repeat split; reflexivity. Qed.

Lemma schema_properties_follow_declaration_witness :
  exists schema properties,
    _generate_entity_schema More.loose_flags = Ok schema /\
    lookup_path ["properties"] schema = Ok (PDict properties) /\
    dict_keys properties = [PStr "a"; PStr "b"; PStr "c"; PStr "d"] /\
    lookup_path ["properties"; "a"; "type"] schema = Ok (PStr "integer").
Proof.
  eexists.
  destruct (schema_properties_follow_declaration More.loose_flags _
              ["a"; "b"; "c"; "a"; "d"] eq_refl eq_refl)
    as [properties [Hlookup [Hkeys _]]].
  exists properties; split; [reflexivity |].
  split; [exact Hlookup |].
  split; [exact Hkeys | reflexivity].
Defined.

Lemma schema_carries_the_classification_witness :
  exists items,
    _generate_entity_schema More.loose_flags = Ok (PDict items) /\
    dict_get (PStr "x-taxonomy") items
    = Some (PDict ["level" :-> PStr "internal"]).
Proof.
  destruct (schema_carries_the_classification More.loose_flags _ eq_refl)
    as [items [Hschema [_ [_ Hcarried]]]].
  exists items; split; [rewrite <- Hschema; reflexivity | exact Hcarried].
Defined.

Lemma required_lists_truthy_attributes_witness :
  exists schema,
    _generate_entity_schema More.loose_flags = Ok schema /\
    lookup_path ["required"] schema = Ok (PList [PStr "a"; PStr "c"]).
Proof.
  eexists; split; [reflexivity |].
  apply (required_lists_truthy_attributes More.loose_flags); reflexivity.
Defined.

Lemma faulty_attribute_stops_the_schema_witness :
  _generate_entity_schema More.broken_entity = Raise KeyError.
Proof.
  apply (faulty_attribute_stops_the_schema _
           [Sample.attribute "id" "uuid" []] More.nameless_attribute
           [Sample.attribute "later" "string" []]);
    [reflexivity | reflexivity |].
  apply attribute_without_name; reflexivity.
Defined.

Lemma faulty_entity_stops_the_generation_witness :
  generate_from_loaded ascii_lower ascii_title Sample.insertion_order
    Sample.with_taxonomy
    More.half_broken = Raise KeyError.
Proof.
  apply (faulty_entity_stops_the_generation ascii_lower ascii_title _ _ _
    [Sample.user]
           More.nameless_entity [Sample.customer]);
    [reflexivity | reflexivity | reflexivity |].
  apply entity_without_name; reflexivity.
Defined.

Lemma misshapen_model_raises_witness :
  generate_from_loaded ascii_lower ascii_title Sample.insertion_order
    Sample.without_taxonomy
    (PDict ["model" :-> PDict ["domain" :-> PInt 5]; "entities" :-> PNone])
  = Raise AttributeError.
Proof.
  destruct (misshapen_model_raises ascii_lower ascii_title
    Sample.insertion_order
              Sample.without_taxonomy) as [_ [_ [Hdomain _]]].
  apply (Hdomain _ (PInt 5)); reflexivity.
Defined.

Lemma paths_hold_the_last_entity_witness :
  exists doc paths,
    generate_from_loaded ascii_lower ascii_title Sample.insertion_order
      Sample.without_taxonomy
      More.shop = Ok doc /\
    lookup_path ["paths"] doc = Ok (PDict paths) /\
    dict_keys paths = [ PStr "/users"; PStr "/users/{userId}";
                        PStr "/orders"; PStr "/orders/{orderId}" ] /\
    lookup_path ["paths"; "/users"] doc = Ok (collection_item "USER").
Proof.
  eexists; eexists; split; [reflexivity |].
  split; [reflexivity |].
  split; [reflexivity |].
  apply (paths_hold_the_last_entity ascii_lower ascii_title
    Sample.insertion_order
           Sample.without_taxonomy More.shop _ "user" "USER");
    reflexivity.
Defined.

Lemma list_reference_is_generated_witness :
  exists doc,
    generate_from_loaded ascii_lower ascii_title Sample.insertion_order
      Sample.without_taxonomy
      More.shop = Ok doc /\
    lookup_path
      [ "paths"; "/users"; "get"; "responses"; "200"; "content";
        "application/json"; "schema"; "properties"; "data"; "items"; "$ref" ]
      doc = Ok (PStr "#/components/schemas/USER") /\
    exists schema, lookup_path ["components"; "schemas"; "USER"] doc = Ok schema.
Proof.
  eexists; split; [reflexivity |].
  destruct (list_reference_is_generated ascii_lower ascii_title
    Sample.insertion_order
              Sample.without_taxonomy More.shop _ "user" "USER"
              eq_refl eq_refl) as [Hreference [Hschema _]].
  split; [exact Hreference | exact Hschema].
Defined.

Lemma only_entities_have_schemas_witness :
  exists doc,
    generate_from_loaded ascii_lower ascii_title Sample.insertion_order
      Sample.without_taxonomy
      Sample.user_account = Ok doc /\
    (exists schema,
        lookup_path ["components"; "schemas"; "User"] doc = Ok schema) /\
    ~ (exists schema,
          lookup_path ["components"; "schemas"; "Error"] doc = Ok schema).
Proof.
  eexists; split; [reflexivity |].
  destruct (only_entities_have_schemas ascii_lower ascii_title
    Sample.insertion_order
              Sample.without_taxonomy Sample.user_account _ ["User"]
              eq_refl eq_refl) as [Hkeys _].
  split.
  - apply Hkeys; left; reflexivity.
  - intros H; apply Hkeys in H; destruct H as [H | []]; discriminate H.
Defined.

Lemma paths_depend_on_names_only_witness :
  exists d1 d2,
    generate_from_loaded ascii_lower ascii_title Sample.insertion_order
      Sample.with_taxonomy
      Sample.clinic = Ok d1 /\
    generate_from_loaded ascii_lower ascii_title Sample.reverse_order
      Sample.without_taxonomy
      More.bare_clinic = Ok d2 /\
    lookup_path ["paths"] d1 = lookup_path ["paths"] d2.
Proof.
  eexists; eexists; split; [reflexivity |].
  split; [reflexivity |].
  apply (paths_depend_on_names_only ascii_lower ascii_title
    Sample.insertion_order Sample.reverse_order
           Sample.with_taxonomy Sample.without_taxonomy Sample.clinic
           More.bare_clinic); reflexivity.
Defined.

Lemma document_frame_witness :
  exists doc,
    generate_from_loaded ascii_lower ascii_title Sample.insertion_order
      Sample.with_taxonomy
      More.hollow = Ok doc /\
    lookup_path ["info"; "version"] doc = Ok (PInt 7) /\
    lookup_path ["info"; "description"] doc = Ok (PStr "").
Proof.
  eexists; split; [reflexivity |].
  destruct (document_frame ascii_lower ascii_title Sample.insertion_order
    Sample.with_taxonomy
              More.hollow _ eq_refl)
    as (items & _ & _ & _ & _ & _ & _ & Hversion & Hdescription).
  split; [exact Hversion | exact Hdescription].
Defined.

Lemma model_without_entities_witness :
  exists doc,
    generate_from_loaded ascii_lower ascii_title Sample.reverse_order
      Sample.with_taxonomy More.hollow
    = Ok doc /\
    lookup_path ["paths"] doc = Ok (PDict []) /\
    lookup_path ["x-taxonomy"; "compliance"] doc = Ok (PList []).
Proof.
  destruct (model_without_entities ascii_lower ascii_title Sample.reverse_order
    Sample.with_taxonomy
              [ "model" :-> PDict ["version" :-> PInt 7];
                "entities" :-> PStr "" ]
              (fun s => Permutation_sym (Permutation_rev s)) eq_refl)
    as (doc & Hdoc & Hpaths & _ & Hcompliance).
  - right; right; left; reflexivity.
  - exists doc; split; [exact Hdoc |].
    split; [exact Hpaths | exact (Hcompliance eq_refl)].
Defined.

Lemma title_is_the_domain_in_title_case_witness :
  exists doc shown,
    generate_from_loaded ascii_lower ascii_title Sample.insertion_order
      Sample.without_taxonomy Sample.user_account = Ok doc /\
    lookup_path ["info"; "title"] doc = Ok (PStr (shown ++ " API")) /\
    ascii_lower shown = "user account".
Proof.
  eexists.
  destruct (title_is_the_domain_in_title_case ascii_lower ascii_title
              Sample.insertion_order Sample.without_taxonomy
              Sample.user_account _ (fun s _ => eq_refl) eq_refl eq_refl)
    as (shown & Htitle & _ & _ & _ & Hlower).
  exists shown; split; [reflexivity |].
  split; [exact Htitle | exact Hlower].
Defined.

Lemma taxonomy_file_is_read_when_present_witness :
  let run :=
    main Sample.load Sample.dump ascii_lower ascii_title Sample.insertion_order
      Sample.here Sample.opened Sample.utf8_console Sample.help
      (More.with_taxonomy_option "models/user.model.json" "taxonomy.json"
         "schemas/api.yaml")
      More.disk_with_broken_taxonomy in
  exit_code run <> 0%Z /\
  files run = More.disk_with_broken_taxonomy /\
  stdout run = [].
Proof.
  destruct (taxonomy_file_is_read_when_present ascii_lower ascii_title
              Sample.here Sample.load Sample.dump Sample.insertion_order
              Sample.opened Sample.utf8_console Sample.help
              (More.with_taxonomy_option "models/user.model.json"
                 "taxonomy.json" "schemas/api.yaml")
              More.disk_with_broken_taxonomy "taxonomy.json"
              eq_refl eq_refl)
    as [_ Hbroken].
  apply Hbroken; [discriminate |].
  right; exists "{ not json"; split; reflexivity.
Defined.

Lemma main_succeeds_on_a_well_formed_model_witness :
  let run :=
    main Sample.load Sample.dump ascii_lower ascii_title Sample.insertion_order
      Sample.here Sample.opened Sample.utf8_console Sample.help
      (More.with_taxonomy_option "models/clinic.model.json" "taxonomy.json"
         "schemas/clinic.yaml")
      Sample.disk in
  exit_code run = 0%Z /\
  files run "schemas/clinic.yaml" = Some (Text "yaml") /\
  files run "taxonomy.json" = Sample.disk "taxonomy.json".
Proof.
  destruct (main_succeeds_on_a_well_formed_model ascii_lower ascii_title
              Sample.here Sample.load Sample.dump Sample.insertion_order
              Sample.opened Sample.utf8_console Sample.help
              (More.with_taxonomy_option "models/clinic.model.json"
                 "taxonomy.json" "schemas/clinic.yaml")
              Sample.disk "models/clinic.model.json" "schemas/clinic.yaml"
              "text of clinic.model.json" Sample.clinic Sample.with_taxonomy
              eq_refl eq_refl eq_refl eq_refl eq_refl eq_refl eq_refl)
    as (doc & _ & Hrun).
  destruct (Hrun Sample.disk "yaml" eq_refl eq_refl eq_refl)
    as (Hstatus & Hwritten & Hothers & _).
  cbv zeta; split; [exact Hstatus |].
  split; [exact Hwritten | apply Hothers; discriminate].
Defined.

